(** * document-evaluator: the section locator, the section scorer and the
      document aggregator of [src/index.ts]

    The development embeds [extractKeywords], [evaluateSection] and
    [evaluateDocument] together with the rubric [projectOverviewType], and
    proves the testable properties of the specification about them.

    Conventions of the embedding.

    - A JavaScript string is a [string] of code units below 256 (the Latin-1
      range of UTF-16).  The classes [\d] and [\s], [toLowerCase] and the
      canonicalisation of the [i] flag are the ECMAScript ones restricted to
      that range.
    - A JavaScript number is a [num]: an exact rational, [NaN] or an
      infinity; the exceptional values are modelled because [0 / 0] can
      arise.  [num] does not round: the module [Binary64] replays the
      arithmetic of the scorer and of the aggregator in binary64 where the
      rounding decides.
    - The two result objects [sectionScores] and [missingKeywords] are maps
      from names to their own properties; an assignment to the key
      [__proto__] adds none ([objectSet]).
    - The pattern of [sectionRegex] splices [section.name] into the regular
      expression unescaped.  The embedding covers names built from ordinary
      pattern characters ([plain_name]), as all names of the rubric are; for
      them the pattern is the text of the name.
    - [keyword_extractor.extract] belongs to the package [keyword-extractor]
      and is a parameter of the development; [extract_model] and
      [extract_urls] are two extractors that fit the description of the
      specification. *)

From Stdlib Require Import String Ascii List Bool Arith Lia QArith Lqa DecimalString.
From Stdlib Require Import SpecFloat.
From stdpp Require Import gmap strings.
Import ListNotations.

Local Open Scope string_scope.
Local Open Scope nat_scope.

(** ** Code units *)

Definition code (c : ascii) : nat := nat_of_ascii c.

(** [\d]: the ten ASCII digits. *)
Definition isDigit (c : ascii) : bool :=
  (48 <=? code c) && (code c <=? 57).

(** [\s]: TAB, LF, VT, FF, CR, SPACE and NO-BREAK SPACE are the white space
    and line terminator code units below 256. *)
Definition isWhiteSpace (c : ascii) : bool :=
  ((9 <=? code c) && (code c <=? 13)) || (code c =? 32) || (code c =? 160).

(** Upper-case letters of the range: A-Z and U+00C0-U+00DE without the
    multiplication sign U+00D7. *)
Definition isUpper (c : ascii) : bool :=
  ((65 <=? code c) && (code c <=? 90))
  || ((192 <=? code c) && (code c <=? 222) && negb (code c =? 215)).

(** Lower-case letters whose upper case is again below 256: a-z and
    U+00E0-U+00FE without the division sign U+00F7. *)
Definition isLower (c : ascii) : bool :=
  ((97 <=? code c) && (code c <=? 122))
  || ((224 <=? code c) && (code c <=? 254) && negb (code c =? 247)).

(** One code unit of [String.prototype.toLowerCase]. *)
Definition toLowerChar (c : ascii) : ascii :=
  if isUpper c then ascii_of_nat (code c + 32) else c.

(** [Canonicalize] of a case-insensitive, non-unicode RegExp: the upper case
    of the code unit when that is a single code unit.  U+00DF (upper case
    "SS") is kept; U+00B5 and U+00FF have their upper case above 255, where
    no other code unit of the range is mapped, so within the range they are
    only equal to themselves and are kept as well. *)
Definition canonicalize (c : ascii) : ascii :=
  if isLower c then ascii_of_nat (code c - 32) else c.

(** ** Strings *)

Fixpoint str_map (f : ascii -> ascii) (s : string) : string :=
  match s with
  | EmptyString => EmptyString
  | String c s' => String (f c) (str_map f s')
  end.

(** [s.toLowerCase()] *)
Definition toLowerCase (s : string) : string := str_map toLowerChar s.

(** [s.slice(n)] for [0 <= n] *)
Fixpoint slice_from (n : nat) (s : string) : string :=
  match n, s with
  | O, _ => s
  | S n', String _ s' => slice_from n' s'
  | S _, EmptyString => EmptyString
  end.

(** [s.slice(0, n)] for [0 <= n] *)
Fixpoint slice_to (n : nat) (s : string) : string :=
  match n, s with
  | S n', String c s' => String c (slice_to n' s')
  | _, _ => EmptyString
  end.

Fixpoint str_exists (f : ascii -> bool) (s : string) : bool :=
  match s with
  | EmptyString => false
  | String c s' => f c || str_exists f s'
  end.

Definition nonEmpty (s : string) : bool := 0 <? String.length s.

(** [s.split(/\s+/)]: the pieces between the maximal runs of white space,
    empty pieces at both ends included.  [piece] is the piece being read and
    [inRun] tells that the previous code unit was white space. *)
Fixpoint split_ws (piece : string) (inRun : bool) (s : string) : list string :=
  match s with
  | EmptyString => [piece]
  | String c s' =>
      if isWhiteSpace c
      then (if inRun then split_ws piece true s'
            else piece :: split_ws EmptyString true s')
      else split_ws (piece +:+ String c EmptyString) false s'
  end.

(** [s.split(/\s+/).filter((word) => word.length > 0)] *)
Definition words (s : string) : list string :=
  List.filter nonEmpty (split_ws EmptyString false s).

(** [xs.includes(x)] on an array of strings *)
Definition includes (xs : list string) (x : string) : bool :=
  existsb (String.eqb x) xs.

(** [`${n}`] for a non-negative integer *)
Definition showNat (n : nat) : string := NilZero.string_of_uint (Nat.to_uint n).

(** ** Regular expressions

    The two patterns of [evaluateSection] are sequences of single-character
    atoms, some of them under a greedy [+].  [match_here] is the backtracking
    matcher of ECMAScript on such sequences: it returns the length of the
    match that starts at the head of the string. *)

Inductive atom : Type :=
| One (cls : ascii -> bool)
| OneOrMore (cls : ascii -> bool).

Definition regex : Type := list atom.

(** [cls+ k]: the longest run first, one code unit being given back at a time
    until the continuation [k] matches. *)
Fixpoint match_plus (cls : ascii -> bool) (k : string -> option nat)
    (s : string) : option nat :=
  match s with
  | EmptyString => None
  | String c s' =>
      if cls c then
        match match_plus cls k s' with
        | Some n => Some (S n)
        | None => option_map S (k s')
        end
      else None
  end.

Fixpoint match_here (p : regex) : string -> option nat :=
  match p with
  | [] => fun _ => Some 0
  | One cls :: p' =>
      fun s =>
        match s with
        | EmptyString => None
        | String c s' => if cls c then option_map S (match_here p' s') else None
        end
  | OneOrMore cls :: p' => match_plus cls (match_here p')
  end.

(** [s.match(p)] for a pattern without the [g] flag: the leftmost match, as
    the pair of [index] and of the length of [match[0]]. *)
Fixpoint regex_match (p : regex) (s : string) : option (nat * nat) :=
  match match_here p s with
  | Some n => Some (0, n)
  | None =>
      match s with
      | EmptyString => None
      | String _ s' =>
          match regex_match p s' with
          | Some (i, n) => Some (S i, n)
          | None => None
          end
      end
  end.

(** A literal pattern character, under the [i] flag or not. *)
Definition lit (ignoreCase : bool) (c : ascii) : ascii -> bool :=
  fun x =>
    if ignoreCase then Ascii.eqb (canonicalize x) (canonicalize c)
    else Ascii.eqb x c.

(** [## \d+\.\s+] *)
Definition headerPrefix (ignoreCase : bool) : regex :=
  [ One (lit ignoreCase "#"); One (lit ignoreCase "#"); One (lit ignoreCase " ");
    OneOrMore isDigit; One (lit ignoreCase "."); OneOrMore isWhiteSpace ].

(** The syntax characters of a pattern; every other character stands for
    itself. *)
Definition isSyntaxChar (c : ascii) : bool :=
  str_exists (Ascii.eqb c) "^$\.*+?()[]{}|".

Definition plain_name (name : string) : bool :=
  negb (str_exists isSyntaxChar name).

(** ** Numbers *)

Inductive num : Type :=
| NaN
| PInf
| NInf
| Fin (q : Q).

Definition num_of_nat (n : nat) : num := Fin (inject_Z (Z.of_nat n)).

Definition num_add (x y : num) : num :=
  match x, y with
  | NaN, _ | _, NaN => NaN
  | PInf, NInf | NInf, PInf => NaN
  | PInf, _ | _, PInf => PInf
  | NInf, _ | _, NInf => NInf
  | Fin a, Fin b => Fin (a + b)
  end.

Definition num_neg (x : num) : num :=
  match x with
  | NaN => NaN
  | PInf => NInf
  | NInf => PInf
  | Fin a => Fin (- a)
  end.

Definition num_sub (x y : num) : num := num_add x (num_neg y).

(** The infinity of the sign of [a], or [NaN] for zero. *)
Definition signed_inf (a : Q) : num :=
  match (a ?= 0)%Q with
  | Eq => NaN
  | Gt => PInf
  | Lt => NInf
  end.

Definition num_mul (x y : num) : num :=
  match x, y with
  | NaN, _ | _, NaN => NaN
  | PInf, PInf | NInf, NInf => PInf
  | PInf, NInf | NInf, PInf => NInf
  | PInf, Fin a | Fin a, PInf => signed_inf a
  | NInf, Fin a | Fin a, NInf => signed_inf (- a)
  | Fin a, Fin b => Fin (a * b)
  end.

(** Division.  A zero divisor is the positive zero: the program only divides
    by lengths. *)
Definition num_div (x y : num) : num :=
  match x, y with
  | NaN, _ | _, NaN => NaN
  | (PInf | NInf), (PInf | NInf) => NaN
  | Fin _, (PInf | NInf) => Fin 0
  | PInf, Fin b => match (b ?= 0)%Q with Lt => NInf | _ => PInf end
  | NInf, Fin b => match (b ?= 0)%Q with Lt => PInf | _ => NInf end
  | Fin a, Fin b =>
      match (b ?= 0)%Q with
      | Eq => signed_inf a
      | _ => Fin (a / b)
      end
  end.

(** [x <= y] and [x < y]: false as soon as an operand is [NaN]. *)
Definition num_leb (x y : num) : bool :=
  match x, y with
  | NaN, _ | _, NaN => false
  | NInf, _ | _, PInf => true
  | _, NInf | PInf, _ => false
  | Fin a, Fin b => Qle_bool a b
  end.

Definition num_ltb (x y : num) : bool :=
  match x, y with
  | NaN, _ | _, NaN => false
  | PInf, _ | _, NInf => false
  | NInf, _ | _, PInf => true
  | Fin a, Fin b => negb (Qle_bool b a)
  end.

(** [Math.min(x, y)] *)
Definition num_min (x y : num) : num :=
  match x, y with
  | NaN, _ | _, NaN => NaN
  | NInf, _ | _, NInf => NInf
  | PInf, z | z, PInf => z
  | Fin a, Fin b => if Qle_bool a b then Fin a else Fin b
  end.

(** The same number: rationals are compared by value. *)
Definition num_eq (x y : num) : Prop :=
  match x, y with
  | NaN, NaN | PInf, PInf | NInf, NInf => True
  | Fin a, Fin b => (a == b)%Q
  | _, _ => False
  end.

Definition num_eqb (x y : num) : bool :=
  match x, y with
  | NaN, NaN | PInf, PInf | NInf, NInf => true
  | Fin a, Fin b => Qeq_bool a b
  | _, _ => false
  end.

(** ** Data model *)

(** [interface Section] *)
Record Section : Type := {
  name : string;
  requiredKeywords : list string;
  minWordCount : nat
}.

(** [interface DocumentType] *)
Module DocumentType.
Record t : Type := {
  name : string;
  sections : list Section;
  overallMinWordCount : nat
}.
End DocumentType.

(** The value returned by [evaluateSection]. *)
Record SectionResult : Type := {
  score : num;
  feedback : string;
  missingKeywords : list string
}.

(** [interface EvaluationResult] *)
Module EvaluationResult.
Record t : Type := {
  documentType : string;
  overallScore : num;
  sectionScores : gmap string num;
  feedback : list string;
  missingKeywords : gmap string (list string);
  wordCount : nat
}.
End EvaluationResult.

Definition projectOverviewType : DocumentType.t := {|
  DocumentType.name := "Project Overview";
  DocumentType.sections := [
    {| name := "Introduction";
       requiredKeywords := ["purpose"; "scope"; "objectives"];
       minWordCount := 100 |};
    {| name := "Key Features";
       requiredKeywords := ["functionality"; "benefits"; "unique"];
       minWordCount := 150 |};
    {| name := "Target User";
       requiredKeywords := ["audience"; "user"; "demographic"];
       minWordCount := 75 |};
    {| name := "User Access Levels";
       requiredKeywords := ["roles"; "permissions"; "admin"];
       minWordCount := 100 |};
    {| name := "Purpose";
       requiredKeywords := ["goal"; "aim"; "objective"];
       minWordCount := 75 |};
    {| name := "Technology Stack";
       requiredKeywords := ["frontend"; "backend"; "database"];
       minWordCount := 100 |};
    {| name := "Conclusion";
       requiredKeywords := ["summary"; "future"; "next steps"];
       minWordCount := 75 |}
  ];
  DocumentType.overallMinWordCount := 500
|}.

(** The options object handed to [keyword_extractor.extract]. *)
Record ExtractOptions : Type := {
  language : string;
  remove_digits : bool;
  return_changed_case : bool;
  remove_duplicates : bool
}.

(** The patterns of [evaluateSection]:
    [new RegExp(`## \\d+\\.\\s+${section.name}`, "i")] and [/## \d+\.\s+/]. *)
Definition sectionRegex (section : Section) : regex :=
  (headerPrefix true
   ++ map (fun c => One (lit true c)) (list_ascii_of_string (name section)))%list.

Definition nextSectionRegex : regex := headerPrefix false.

(** The text of a section whose header matched at [sectionMatch]. *)
Definition sectionText (content : string) (sectionMatch : nat * nat) : string :=
  let '(index, matched) := sectionMatch in
  let sectionContent := slice_from index content in
  let nextSectionMatch :=
    regex_match nextSectionRegex (slice_from matched sectionContent) in
  match nextSectionMatch with
  | Some (nextIndex, _) => slice_to (nextIndex + matched) sectionContent
  | None => sectionContent
  end.

(** [1 - missingKeywords.length / section.requiredKeywords.length] *)
Definition keywordScore (missing required : list string) : num :=
  num_sub (Fin 1)
    (num_div (num_of_nat (length missing)) (num_of_nat (length required))).

Definition half : num := Fin (1 # 2).

Definition quote : string := String (ascii_of_nat 34) EmptyString.

(** [object[key] = value] on an object created by [{}]: the key [__proto__]
    reaches the setter of [Object.prototype], which adds no property to the
    object (it changes the prototype when the value is an object and does
    nothing for a number). *)
Definition objectSet {V : Type} (key : string) (value : V)
    (object : gmap string V) : gmap string V :=
  if String.eqb key "__proto__" then object else <[key := value]> object.

Section Evaluator.

(** [keyword_extractor.extract] *)
Variable keyword_extractor_extract : string -> ExtractOptions -> list string.

Definition extractKeywords (text : string) : list string :=
  keyword_extractor_extract text
    {| language := "english";
       remove_digits := true;
       return_changed_case := true;
       remove_duplicates := true |}.

(** [section.requiredKeywords.filter((keyword) =>
      !keywordsFound.includes(keyword.toLowerCase()))] *)
Definition missingIn (keywordsFound : list string) (section : Section)
    : list string :=
  List.filter (fun keyword => negb (includes keywordsFound (toLowerCase keyword)))
    (requiredKeywords section).

(** Lines 154-180 of [evaluateSection]: the scoring of the section text. *)
Definition scoreSectionText (sectionText : string) (section : Section)
    : SectionResult :=
  let wordCount := length (words sectionText) in
  let keywordsFound := extractKeywords sectionText in
  let missing := missingIn keywordsFound section in
  let met := minWordCount section <=? wordCount in
  let score0 := if met then num_add (Fin 0) half else Fin 0 in
  let feedback0 :=
    if met
    then "Word count requirement met (" +:+ showNat wordCount +:+ " words). "
    else "Word count below minimum (" +:+ showNat wordCount +:+ "/"
         +:+ showNat (minWordCount section) +:+ "). " in
  let score1 :=
    num_add score0
      (num_mul (keywordScore missing (requiredKeywords section)) half) in
  let feedback1 :=
    match missing with
    | [] => feedback0 +:+ "All required keywords found. "
    | _ => feedback0 +:+ "Missing keywords: " +:+ String.concat ", " missing
           +:+ ". "
    end in
  {| score := score1; feedback := feedback1; missingKeywords := missing |}.

Definition evaluateSection (content : string) (section : Section)
    : SectionResult :=
  match regex_match (sectionRegex section) content with
  | None =>
      {| score := Fin 0;
         feedback := "Section " +:+ quote +:+ name section +:+ quote
                     +:+ " is missing.";
         missingKeywords := requiredKeywords section |}
  | Some sectionMatch =>
      scoreSectionText (sectionText content sectionMatch) section
  end.

(** The variables that the [forEach] of [evaluateDocument] updates. *)
Record Tally : Type := {
  tallyScores : gmap string num;
  tallyFeedback : list string;
  tallyMissing : gmap string (list string);
  tallyOverall : num
}.

Definition tally0 : Tally :=
  {| tallyScores := ∅; tallyFeedback := []; tallyMissing := ∅;
     tallyOverall := Fin 0 |}.

(** One turn of the [forEach]. *)
Definition tallySection (content : string) (t : Tally) (section : Section)
    : Tally :=
  let r := evaluateSection content section in
  {| tallyScores := objectSet (name section) (score r) (tallyScores t);
     tallyFeedback :=
       (tallyFeedback t ++ [name section +:+ ": " +:+ feedback r])%list;
     tallyMissing :=
       if 0 <? length (missingKeywords r)
       then objectSet (name section) (missingKeywords r) (tallyMissing t)
       else tallyMissing t;
     tallyOverall := num_add (tallyOverall t) (score r) |}.

Definition evaluateDocument (content : string) (documentType : DocumentType.t)
    : EvaluationResult.t :=
  let wordCount := length (words content) in
  let t := fold_left (tallySection content)
             (DocumentType.sections documentType) tally0 in
  let average :=
    num_div (tallyOverall t)
      (num_of_nat (length (DocumentType.sections documentType))) in
  let met := DocumentType.overallMinWordCount documentType <=? wordCount in
  let overall := if met then num_add average (Fin (1 # 10)) else average in
  let lastLine :=
    if met
    then "Overall word count requirement met (" +:+ showNat wordCount
         +:+ " words)."
    else "Overall word count below minimum (" +:+ showNat wordCount +:+ "/"
         +:+ showNat (DocumentType.overallMinWordCount documentType) +:+ ")." in
  {| EvaluationResult.documentType := DocumentType.name documentType;
     EvaluationResult.overallScore := num_mul (num_min overall (Fin 1)) (Fin 100);
     EvaluationResult.sectionScores := tallyScores t;
     EvaluationResult.feedback := (tallyFeedback t ++ [lastLine])%list;
     EvaluationResult.missingKeywords := tallyMissing t;
     EvaluationResult.wordCount := wordCount |}.

End Evaluator.

(** ** The keyword extractor *)

(** [_.uniq]: the first occurrence of every string is kept. *)
Fixpoint uniq (xs : list string) : list string :=
  match xs with
  | [] => []
  | x :: xs' => x :: List.filter (fun y => negb (String.eqb x y)) (uniq xs')
  end.

(** Modelled from the spec: [keyword_extractor.extract] of the package
    keyword-extractor, which the sources import and do not contain.  The
    specification describes its result as the normalized keyword tokens of
    the text, lowercased and deduplicated: the white-space separated tokens
    of the text, in lower case under [return_changed_case] and without
    repetitions under [remove_duplicates].  The stop words of [language] and
    the handling of digits are not described and are left out. *)
Definition extract_model (text : string) (options : ExtractOptions)
    : list string :=
  let tokens := words text in
  let tokens :=
    if return_changed_case options then map toLowerCase tokens else tokens in
  if remove_duplicates options then uniq tokens else tokens.

(** Modelled from the spec: [keyword_extractor.extract] returns "normalized
    keyword tokens"; a token is a single word, free of white space. *)
Definition tokens_are_words
    (extract : string -> ExtractOptions -> list string) : Prop :=
  forall text token,
    In token (extractKeywords extract text) ->
    str_exists isWhiteSpace token = false.

(** ** The statements of the specification *)

(** The names of a rubric are literal patterns. *)
Definition plain_rubric (documentType : DocumentType.t) : bool :=
  forallb (fun section => plain_name (name section))
    (DocumentType.sections documentType).

(** The scores that [evaluateSection] gives to the sections of a rubric. *)
Definition sectionScoresOf (extract : string -> ExtractOptions -> list string)
    (content : string) (documentType : DocumentType.t) : list num :=
  map (fun section => score (evaluateSection extract content section))
    (DocumentType.sections documentType).

(** "Averages all section scores" *)
Definition sumScores (scores : list num) : num :=
  fold_right num_add (Fin 0) scores.

Definition averageScore (scores : list num) : num :=
  num_div (sumScores scores) (num_of_nat (length scores)).

(** "then adds a flat 0.1 bonus if overall document word count meets the
    document-level minimum.  Overall score is capped at 1.0 and expressed as
    a percentage." *)
Definition documentFormula (scores : list num) (meetsMinimum : bool) : num :=
  num_mul
    (num_min
       (num_add (averageScore scores)
          (if meetsMinimum then Fin (1 # 10) else Fin 0))
       (Fin 1))
    (Fin 100).

(** The number of required keywords that are found. *)
Definition foundCount (keywordsFound : list string) (section : Section) : nat :=
  length
    (List.filter (fun keyword => includes keywordsFound (toLowerCase keyword))
       (requiredKeywords section)).

(** "contributing 0.5 to section score if met" and
    "contributes 0.5 * (found/required) to the score" *)
Definition sectionFormula (wordCount : nat) (keywordsFound : list string)
    (section : Section) : num :=
  num_add
    (if minWordCount section <=? wordCount then half else Fin 0)
    (num_mul half
       (num_div (num_of_nat (foundCount keywordsFound section))
          (num_of_nat (length (requiredKeywords section))))).

(** The pattern [p] matches [len] code units of [content] from index [i]. *)
Definition header_at (p : regex) (content : string) (i len : nat) : Prop :=
  i <= String.length content /\ match_here p (slice_from i content) = Some len.

(** ... and at no smaller index. *)
Definition first_header_at (p : regex) (content : string) (i len : nat) : Prop :=
  header_at p content i len
  /\ forall k, k < i -> match_here p (slice_from k content) = None.

(** [j] is the index of the first header [## <number>. ] that starts at
    [from] or later, or the length of the document when there is none. *)
Definition next_header_bound (content : string) (from j : nat) : Prop :=
  from <= j <= String.length content
  /\ (forall k, from <= k < j ->
        match_here nextSectionRegex (slice_from k content) = None)
  /\ (j = String.length content
      \/ match_here nextSectionRegex (slice_from j content) <> None).

(** The section is present with at least its minimum word count and all of
    its required keywords found. *)
Definition fullyMet (extract : string -> ExtractOptions -> list string)
    (content : string) (section : Section) : bool :=
  match regex_match (sectionRegex section) content with
  | None => false
  | Some sectionMatch =>
      let text := sectionText content sectionMatch in
      (minWordCount section <=? length (words text))
      && forallb
           (fun keyword =>
              includes (extractKeywords extract text) (toLowerCase keyword))
           (requiredKeywords section)
  end.


(** Finite numbers between two rationals. *)
Definition between (lo hi : Q) (x : num) : Prop :=
  match x with
  | Fin q => (lo <= q <= hi)%Q
  | _ => False
  end.

(** ** Sample rubrics and documents *)

Definition lf : string := String (ascii_of_nat 10) EmptyString.

Definition introOnly : Section :=
  {| name := "Intro"; requiredKeywords := ["purpose"; "scope"];
     minWordCount := 7 |}.

(** The last section of [projectOverviewType]. *)
Definition conclusion : Section :=
  {| name := "Conclusion";
     requiredKeywords := ["summary"; "future"; "next steps"];
     minWordCount := 75 |}.

Definition closing : Section :=
  {| name := "Conclusion"; requiredKeywords := ["summary"; "next steps"];
     minWordCount := 5 |}.

Definition unkeyed : Section :=
  {| name := "Notes"; requiredKeywords := []; minWordCount := 3 |}.

Definition smallType : DocumentType.t :=
  {| DocumentType.name := "Small";
     DocumentType.sections := [introOnly];
     DocumentType.overallMinWordCount := 6 |}.

Definition twoSectionType : DocumentType.t :=
  {| DocumentType.name := "Two";
     DocumentType.sections := [introOnly; closing];
     DocumentType.overallMinWordCount := 10 |}.

Definition emptyType : DocumentType.t :=
  {| DocumentType.name := "Empty";
     DocumentType.sections := [];
     DocumentType.overallMinWordCount := 0 |}.

Definition unkeyedType : DocumentType.t :=
  {| DocumentType.name := "Notes only";
     DocumentType.sections := [unkeyed];
     DocumentType.overallMinWordCount := 0 |}.

Definition smallDoc : string :=
  "## 1. Intro" +:+ lf +:+ "The Purpose and scope" +:+ lf
  +:+ "## 2. Conclusion" +:+ lf +:+ "A summary of next steps".


Definition notesDoc : string := "## 1. Notes".

(** A document written for [projectOverviewType]: every section has its
    header, its required keywords and as many filler words as its minimum
    word count. *)
Fixpoint filler (n : nat) : string :=
  match n with
  | O => EmptyString
  | S n' => "word " +:+ filler n'
  end.

Definition sectionParagraph (number : nat) (section : Section) : string :=
  "## " +:+ showNat number +:+ ". " +:+ name section +:+ lf
  +:+ String.concat " " (requiredKeywords section) +:+ " "
  +:+ filler (minWordCount section) +:+ lf.

Fixpoint paragraphsFrom (number : nat) (sections : list Section) : string :=
  match sections with
  | [] => EmptyString
  | section :: rest =>
      sectionParagraph number section +:+ paragraphsFrom (S number) rest
  end.

Definition rubricDoc : string :=
  paragraphsFrom 1 (DocumentType.sections projectOverviewType).

Definition strayDoc : string := "Nothing but a paragraph.".

(** ** Further definitions: headers, word counts, the result maps *)

(** The strings that a pattern matches: [OneOrMore cls] stands for one or
    more code units of the class. *)
Inductive lang : regex -> string -> Prop :=
| lang_end : lang [] EmptyString
| lang_one cls p c w :
    cls c = true -> lang p w -> lang (One cls :: p) (String c w)
| lang_more cls p c w :
    cls c = true -> lang (OneOrMore cls :: p) w ->
    lang (OneOrMore cls :: p) (String c w)
| lang_last cls p c w :
    cls c = true -> lang p w -> lang (OneOrMore cls :: p) (String c w).

Fixpoint str_forall (f : ascii -> bool) (s : string) : bool :=
  match s with
  | EmptyString => true
  | String c s' => f c && str_forall f s'
  end.

(** A header of the section [name]: [## ], digits, a dot, white space and
    the name in any letter case. *)
Definition header_shape (name w : string) : Prop :=
  exists digits spaces title,
    w = "## " +:+ digits +:+ "." +:+ spaces +:+ title
    /\ digits <> EmptyString /\ str_forall isDigit digits = true
    /\ spaces <> EmptyString /\ str_forall isWhiteSpace spaces = true
    /\ toLowerCase title = toLowerCase name.

(** [## ], digits, a dot and white space. *)
Definition prefix_shape (w : string) : Prop :=
  exists digits spaces,
    w = "## " +:+ digits +:+ "." +:+ spaces
    /\ digits <> EmptyString /\ str_forall isDigit digits = true
    /\ spaces <> EmptyString /\ str_forall isWhiteSpace spaces = true.

(** The feedback of [evaluateSection] for a section without header. *)
Definition missingFeedback (section : Section) : string :=
  "Section " +:+ quote +:+ name section +:+ quote +:+ " is missing.".

(** The number of words of a text, read from left to right; [inWord] tells
    that the previous code unit belongs to a word. *)
Fixpoint countWords (inWord : bool) (s : string) : nat :=
  match s with
  | EmptyString => if inWord then 1 else 0
  | String c s' =>
      if isWhiteSpace c
      then (if inWord then 1 else 0) + countWords false s'
      else countWords true s'
  end.

(** The last section of the rubric that satisfies [test]: the one whose
    assignment to a property of an object is not overwritten. *)
Definition lastSection (test : Section -> bool) (sections : list Section)
    : option Section :=
  find test (rev sections).

(** ** The runner: [readFileFromGitHub], [readFileFromBitbucket] and
    [evaluateDocumentFromSource]

    A run is the list of the effects it performs, in order, and its outcome.
    A thrown value is an [Error] and is kept as its [message], which is all
    that the handlers read.  The answers of the network and of the file
    system, [path.join], [__dirname] and [generateReport] (whose [toFixed]
    prints binary64 numbers) are parameters. *)

Record Request : Type := {
  url : string;
  headers : list (string * string);
  auth : option (string * string)
}.

Inductive Effect : Type :=
| HttpGet (request : Request)
| WriteFile (path data : string)
| ConsoleLog (line : string)
| ConsoleError (line : string).

Inductive Outcome (A : Type) : Type :=
| Returned (value : A)
| Thrown (message : string).

Arguments Returned {A} value.
Arguments Thrown {A} message.

Definition Run (A : Type) : Type := (list Effect * Outcome A)%type.

Definition ret {A : Type} (a : A) : Run A := ([], Returned a).

Definition throw {A : Type} (message : string) : Run A := ([], Thrown message).

Definition emit (e : Effect) : Run unit := ([e], Returned tt).

Definition bind {A B : Type} (m : Run A) (f : A -> Run B) : Run B :=
  match m with
  | (effects, Returned a) =>
      let '(effects', r) := f a in ((effects ++ effects')%list, r)
  | (effects, Thrown message) => (effects, Thrown message)
  end.

(** [try { m } catch (error) { handler(error.message) }] *)
Definition tryCatch {A : Type} (m : Run A) (handler : string -> Run A)
    : Run A :=
  match m with
  | (effects, Returned a) => (effects, Returned a)
  | (effects, Thrown message) =>
      let '(effects', r) := handler message in ((effects ++ effects')%list, r)
  end.

Notation "'let!' x ':=' m 'in' k" := (bind m (fun x => k))
  (at level 10, x name, m at level 100, k at level 200).

Notation "'do!' m 'in' k" := (bind m (fun _ => k))
  (at level 10, m at level 100, k at level 200).

(** [encodeURIComponent] on code units below 256: letters, digits and
    [- _ . ! ~ * ' ( )] stand for themselves, every other code unit for the
    bytes of its UTF-8 encoding, each written [%XX] with upper-case
    hexadecimal digits. *)
Definition isUnreserved (c : ascii) : bool :=
  ((65 <=? code c) && (code c <=? 90))
  || ((97 <=? code c) && (code c <=? 122))
  || isDigit c
  || str_exists (Ascii.eqb c) "-_.!~*'()".

Definition hexDigit (n : nat) : ascii :=
  if n <? 10 then ascii_of_nat (48 + n) else ascii_of_nat (55 + n).

Definition percentByte (n : nat) : string :=
  String "%" (String (hexDigit (n / 16)) (String (hexDigit (n mod 16)) EmptyString)).

Definition encodeUnit (c : ascii) : string :=
  if isUnreserved c then String c EmptyString
  else if code c <? 128 then percentByte (code c)
  else percentByte (192 + code c / 64) +:+ percentByte (128 + code c mod 64).

Fixpoint encodeURIComponent (s : string) : string :=
  match s with
  | EmptyString => EmptyString
  | String c s' => encodeUnit c +:+ encodeURIComponent s'
  end.

(** [!username] for [username?: string] *)
Definition falsy (username : option string) : bool :=
  match username with
  | None => true
  | Some u => negb (nonEmpty u)
  end.

Definition githubRequest (owner repo path token : string) : Request :=
  {| url := "https://api.github.com/repos/" +:+ owner +:+ "/" +:+ repo
            +:+ "/contents/" +:+ path;
     headers := [("Authorization", "token " +:+ token);
                 ("Accept", "application/vnd.github.v3.raw")];
     auth := None |}.

Definition bitbucketRequest (owner repo path username token : string)
    : Request :=
  {| url := "https://api.bitbucket.org/2.0/repositories/" +:+ owner +:+ "/"
            +:+ repo +:+ "/src/master/" +:+ encodeURIComponent path;
     headers := [];
     auth := Some (username, token) |}.

Section Runner.

Variable keyword_extractor_extract : string -> ExtractOptions -> list string.

(** [await axios.get(url, config)]: the data of the response, or the message
    of the error. *)
Variable axios_get : Request -> Outcome string.

(** [fs.writeFileSync(path, data)]: the message of the error, if any. *)
Variable fs_writeFileSync : string -> string -> option string.

Variable path_join : string -> string -> string.

Variable dirname : string.

Variable generateReport : EvaluationResult.t -> string.

Definition axiosGet (request : Request) : Run string :=
  do! emit (HttpGet request) in
  match axios_get request with
  | Returned data => ret data
  | Thrown message => throw message
  end.

Definition writeFileSync (path data : string) : Run unit :=
  match fs_writeFileSync path data with
  | None => emit (WriteFile path data)
  | Some message => throw message
  end.

Definition readFileFromGitHub (owner repo path token : string) : Run string :=
  tryCatch
    (axiosGet (githubRequest owner repo path token))
    (fun message => throw ("Error fetching file from GitHub: " +:+ message)).

Definition readFileFromBitbucket (owner repo path username token : string)
    : Run string :=
  tryCatch
    (axiosGet (bitbucketRequest owner repo path username token))
    (fun message => throw ("Error fetching file from Bitbucket: " +:+ message)).

Definition outputPath : string := path_join dirname "evaluation_report.txt".

Definition evaluateDocumentFromSource (source owner repo filePath token : string)
    (username : option string) : Run unit :=
  tryCatch
    (let! content :=
       (if String.eqb source "github"
        then readFileFromGitHub owner repo filePath token
        else if String.eqb source "bitbucket"
        then match username with
             | Some u =>
                 if falsy username
                 then throw "Username is required for Bitbucket"
                 else readFileFromBitbucket owner repo filePath u token
             | None => throw "Username is required for Bitbucket"
             end
        else throw "Unsupported source") in
     let result :=
       evaluateDocument keyword_extractor_extract content projectOverviewType in
     let report := generateReport result in
     do! writeFileSync outputPath report in
     do! emit (ConsoleLog ("Evaluation report generated: " +:+ outputPath)) in
     emit (ConsoleLog report))
    (fun message =>
       emit (ConsoleError ("Error evaluating document: " +:+ message))).

End Runner.

(** A network that answers every request with [smallDoc] and one that
    refuses every request; a file system that accepts every write. *)
Definition answering : Request -> Outcome string := fun _ => Returned smallDoc.

Definition refusing : Request -> Outcome string :=
  fun _ => Thrown "Request failed with status code 404".

Definition writable : string -> string -> option string := fun _ _ => None.

Definition joinWithSlash (directory file : string) : string :=
  directory +:+ "/" +:+ file.

(** A stand-in for [generateReport] on the samples. *)
Definition reportOf (result : EvaluationResult.t) : string :=
  "Document Type: " +:+ EvaluationResult.documentType result.

(** Two sections with the same name, and a heading that only starts with the
    name of a section. *)
Definition introAgain : Section :=
  {| name := "Intro"; requiredKeywords := ["scope"]; minWordCount := 2 |}.

Definition repeatedType : DocumentType.t :=
  {| DocumentType.name := "Repeated";
     DocumentType.sections := [introOnly; closing; introAgain];
     DocumentType.overallMinWordCount := 10 |}.

Definition longTitleDoc : string :=
  "## 12.  introductory remarks" +:+ lf +:+ "the purpose".

Definition scopeDoc : string := "## 1. Intro" +:+ lf +:+ "scope only".

(** Reading back the first code unit of an encoded string; it serves to show
    that [encodeURIComponent] loses nothing. *)
Definition hexValue (c : ascii) : nat :=
  if isDigit c then code c - 48 else code c - 55.

Definition decodeFirst (s : string) : option (ascii * string) :=
  match s with
  | EmptyString => None
  | String c rest =>
      if Ascii.eqb c "%" then
        match rest with
        | String h (String l rest') =>
            let byte := 16 * hexValue h + hexValue l in
            if byte <? 128 then Some (ascii_of_nat byte, rest')
            else
              match rest' with
              | String c' (String h' (String l' rest'')) =>
                  if Ascii.eqb c' "%"
                  then Some (ascii_of_nat
                               ((byte - 192) * 64
                                + (16 * hexValue h' + hexValue l' - 128)),
                             rest'')
                  else None
              | _ => None
              end
        | _ => None
        end
      else Some (c, rest)
  end.

(** The code units that an encoded component is made of. *)
Definition isEncoded (c : ascii) : bool := isUnreserved c || Ascii.eqb c "%".

Definition isHttpGet (e : Effect) : bool :=
  match e with HttpGet _ => true | _ => false end.

(** ** Further definitions: the rubric of the program, binary64, a second
    extractor *)

(** The section is present with at least its minimum word count, and each of
    its required keywords is found or contains white space. *)
Definition metUpToSpaced (extract : string -> ExtractOptions -> list string)
    (content : string) (section : Section) : bool :=
  match regex_match (sectionRegex section) content with
  | None => false
  | Some sectionMatch =>
      let text := sectionText content sectionMatch in
      (minWordCount section <=? length (words text))
      && forallb
           (fun keyword =>
              includes (extractKeywords extract text) (toLowerCase keyword)
              || str_exists isWhiteSpace keyword)
           (requiredKeywords section)
  end.

(** The score of a section as the code computes it, operation by operation,
    from the number of required keywords that are found: the number of
    missing keywords is the number of required keywords minus it. *)
Definition sectionScoreAsComputed (wordCount : nat) (keywordsFound : list string)
    (section : Section) : num :=
  num_add
    (if minWordCount section <=? wordCount then half else Fin 0)
    (num_mul
       (num_sub (Fin 1)
          (num_div
             (num_of_nat (length (requiredKeywords section)
                          - foundCount keywordsFound section))
             (num_of_nat (length (requiredKeywords section)))))
       half).

(** The arithmetic of lines 160-172 in binary64, the numbers of JavaScript,
    next to the formula of the specification. *)
Module Binary64.

Definition of_Z (n : Z) : spec_float := binary_normalize 53 1024 n 0 false.

Definition add : spec_float -> spec_float -> spec_float := SFadd 53 1024.

Definition sub : spec_float -> spec_float -> spec_float := SFsub 53 1024.

Definition mul : spec_float -> spec_float -> spec_float := SFmul 53 1024.

Definition div : spec_float -> spec_float -> spec_float := SFdiv 53 1024.

(** [0.5] *)
Definition half : spec_float := S754_finite false 4503599627370496 (-53).

(** [score = 0; if (met) score += 0.5;
     score += (1 - missing / required) * 0.5] *)
Definition sectionScore (met : bool) (missing required : Z) : spec_float :=
  let score := of_Z 0 in
  let score := if met then add score half else score in
  let keywordScore := sub (of_Z 1) (div (of_Z missing) (of_Z required)) in
  add score (mul keywordScore half).

(** "contributing 0.5 to section score if met" and
    "contributes 0.5 * (found/required) to the score" *)
Definition sectionFormula (met : bool) (found required : Z) : spec_float :=
  add (if met then half else of_Z 0)
    (mul half (div (of_Z found) (of_Z required))).

(** [0.1], the binary64 number next to one tenth *)
Definition tenth : spec_float := S754_finite false 7205759403792794 (-56).

(** [Math.min(x, 1)] *)
Definition minWithOne (x : spec_float) : spec_float :=
  match SFcompare x (of_Z 1) with
  | Some Gt => of_Z 1
  | Some _ => x
  | None => S754_nan
  end.

(** Lines 192-223 of [evaluateDocument], from the scores of the sections:
    [overallScore += score] for each of them,
    [overallScore /= documentType.sections.length], the bonus, and
    [Math.min(overallScore, 1) * 100]. *)
Definition overallScore (scores : list spec_float) (meetsMinimum : bool)
    : spec_float :=
  let overallScore := fold_left add scores (of_Z 0) in
  let overallScore := div overallScore (of_Z (Z.of_nat (length scores))) in
  let overallScore :=
    if meetsMinimum then add overallScore tenth else overallScore in
  mul (minWithOne overallScore) (of_Z 100).

End Binary64.

Fixpoint str_filter (f : ascii -> bool) (s : string) : string :=
  match s with
  | EmptyString => EmptyString
  | String c s' => if f c then String c (str_filter f s') else str_filter f s'
  end.

Definition isPunctuation (c : ascii) : bool :=
  str_exists (Ascii.eqb c) ".,;!?():".

Definition startsWith (start s : string) : bool :=
  String.eqb (slice_to (String.length start) s) start.

Definition isUrl (word : string) : bool :=
  startsWith "http://" word || startsWith "https://" word.

Definition normalizeToken (word : string) : string :=
  toLowerCase
    (if isUrl word then word
     else str_filter (fun c => negb (isPunctuation c)) word).

(** Modelled from the spec: a second stand-in for [keyword_extractor.extract]
    that fits the description of the specification, "normalized keyword
    tokens (deduplicated, lowercased)": the words of the text without their
    punctuation marks, in lower case and without repetitions; a word that
    starts with [http://] or [https://] is a URL and keeps its punctuation. *)
Definition extract_urls (text : string) (options : ExtractOptions)
    : list string :=
  uniq (List.filter nonEmpty (map normalizeToken (words text))).




(** [introOnly] with its keywords in another letter case. *)
Definition introShout : Section :=
  {| name := "Intro"; requiredKeywords := ["PURPOSE"; "Scope"];
     minWordCount := 7 |}.

(** A rubric with a section named [__proto__]. *)
Definition protoSection : Section :=
  {| name := "__proto__"; requiredKeywords := ["summary"]; minWordCount := 1 |}.

Definition protoType : DocumentType.t :=
  {| DocumentType.name := "Proto";
     DocumentType.sections := [protoSection];
     DocumentType.overallMinWordCount := 1 |}.

Definition protoDoc : string := "## 1. __proto__ nothing".

(** * Properties *)

(** ** Code units and strings *)

Ltac each_code_unit c :=
  destruct c as [[] [] [] [] [] [] [] []]; vm_compute; reflexivity.


Lemma isWhiteSpace_toLowerChar c : isWhiteSpace (toLowerChar c) = isWhiteSpace c.
Proof. each_code_unit c. Qed.

Lemma canonicalize_toLowerChar c : canonicalize (toLowerChar c) = canonicalize c.
Proof. each_code_unit c. Qed.

Lemma toLowerChar_canonicalize c : toLowerChar (canonicalize c) = toLowerChar c.
Proof. each_code_unit c. Qed.






Lemma toLowerCase_upper_case_copy s :
  toLowerCase (str_map canonicalize s) = toLowerCase s.
Proof.
  unfold toLowerCase. induction s as [|c s IH]; simpl; [reflexivity|].
  now rewrite toLowerChar_canonicalize, IH.
Qed.



Lemma slice_from_empty n : slice_from n EmptyString = EmptyString.
Proof. destruct n; reflexivity. Qed.

Lemma slice_from_length n s :
  String.length (slice_from n s) = String.length s - n.
Proof.
  revert s; induction n as [|n IH]; intros [|c s]; simpl; auto.
Qed.

Lemma slice_from_add a b s : slice_from a (slice_from b s) = slice_from (b + a) s.
Proof.
  revert s; induction b as [|b IH]; intros s; simpl; [reflexivity|].
  destruct s as [|c s]; [apply slice_from_empty | apply IH].
Qed.

Lemma slice_to_slice_from n i s :
  slice_to n (slice_from i s) = substring i n s.
Proof.
  revert s n; induction i as [|i IH]; intros s n.
  - simpl. revert n; induction s as [|c s IHs]; intros [|n]; simpl; auto.
    now rewrite IHs.
  - destruct s as [|c s]; simpl; [destruct n; reflexivity | apply IH].
Qed.

Lemma slice_from_substring_end i s :
  slice_from i s = substring i (String.length s - i) s.
Proof.
  revert s; induction i as [|i IH]; intros s.
  - simpl. rewrite Nat.sub_0_r.
    induction s as [|c s IHs]; simpl; [reflexivity | now rewrite <- IHs].
  - destruct s as [|c s]; simpl; [reflexivity | apply IH].
Qed.

Lemma str_exists_str_map cls f s :
  (forall c, cls (f c) = cls c) ->
  str_exists cls (str_map f s) = str_exists cls s.
Proof.
  intros H; induction s as [|c s IH]; simpl; [reflexivity|].
  now rewrite H, IH.
Qed.

Lemma str_exists_append cls s t :
  str_exists cls (s +:+ t) = str_exists cls s || str_exists cls t.
Proof.
  induction s as [|c s IH]; simpl; [reflexivity|].
  now rewrite IH, orb_assoc.
Qed.

Lemma includes_In xs x : includes xs x = true <-> In x xs.
Proof.
  unfold includes. rewrite existsb_exists. split.
  - intros [y [Hy Heq]]. apply String.eqb_eq in Heq. now subst.
  - intros H. exists x. split; [assumption | apply String.eqb_refl].
Qed.

(** ** The words of a text *)






Lemma split_ws_pieces piece inRun s x :
  str_exists isWhiteSpace piece = false ->
  In x (split_ws piece inRun s) -> str_exists isWhiteSpace x = false.
Proof.
  revert piece inRun; induction s as [|c s IH]; intros piece inRun Hp; simpl.
  - intros [<-|[]]. assumption.
  - destruct (isWhiteSpace c) eqn:Hc.
    + destruct inRun.
      * apply IH; assumption.
      * intros [<-|H]; [assumption|]. apply (IH EmptyString true); auto.
    + apply IH. rewrite str_exists_append, Hp. simpl. now rewrite Hc.
Qed.

Lemma words_no_space s x : In x (words s) -> str_exists isWhiteSpace x = false.
Proof.
  unfold words. rewrite filter_In. intros [H _].
  apply (split_ws_pieces EmptyString false s); auto.
Qed.

Lemma uniq_In xs x : In x (uniq xs) -> In x xs.
Proof.
  induction xs as [|y xs IH]; simpl; [auto|].
  intros [->|H]; [now left|]. apply filter_In in H. right. apply IH, H.
Qed.

(** ** Matching *)

Lemma match_plus_le cls k s n :
  (forall t m, k t = Some m -> m <= String.length t) ->
  match_plus cls k s = Some n -> n <= String.length s.
Proof.
  intros Hk; revert n; induction s as [|c s IH]; simpl; intros n; [discriminate|].
  destruct (cls c); [|discriminate].
  destruct (match_plus cls k s) as [m|].
  - intros [= <-]. specialize (IH m eq_refl). lia.
  - destruct (k s) as [m|] eqn:E; simpl; [|discriminate].
    intros [= <-]. apply Hk in E. lia.
Qed.

Lemma match_here_le p s n : match_here p s = Some n -> n <= String.length s.
Proof.
  revert s n; induction p as [|[cls|cls] p IH]; intros s n; simpl.
  - intros [= <-]. lia.
  - destruct s as [|c s]; [discriminate|].
    destruct (cls c); [|discriminate].
    destruct (match_here p s) as [m|] eqn:E; simpl; [|discriminate].
    intros [= <-]. apply IH in E. simpl. lia.
  - apply match_plus_le. exact IH.
Qed.

Lemma regex_match_first p s i n :
  regex_match p s = Some (i, n) -> first_header_at p s i n.
Proof.
  revert i; induction s as [|c s IH]; intros i; simpl.
  - destruct (match_here p EmptyString) as [m|] eqn:E; [|discriminate].
    intros [= <- <-]. repeat split; simpl; [lia | assumption | intros; lia].
  - destruct (match_here p (String c s)) as [m|] eqn:E.
    + intros [= <- <-]. repeat split; simpl; [lia | assumption | intros; lia].
    + destruct (regex_match p s) as [[i' n']|]; [|discriminate].
      intros [= <- <-]. destruct (IH i' eq_refl) as [[Hi Hm] Hfirst].
      repeat split; simpl; [lia | assumption |].
      intros [|k] Hk; simpl; [assumption | apply Hfirst; lia].
Qed.

Lemma regex_match_none p s :
  regex_match p s = None <->
  (forall k, match_here p (slice_from k s) = None).
Proof.
  induction s as [|c s IH]; simpl.
  - destruct (match_here p EmptyString) as [m|] eqn:E; split; intros H.
    + discriminate.
    + specialize (H 0). simpl in H. congruence.
    + intros k. now rewrite slice_from_empty.
    + reflexivity.
  - destruct (match_here p (String c s)) as [m|] eqn:E; split; intros H.
    + discriminate.
    + specialize (H 0). simpl in H. congruence.
    + destruct (regex_match p s) as [[i n]|]; [discriminate|].
      intros [|k]; simpl; [assumption | now apply IH].
    + assert (Hs : regex_match p s = None)
        by (apply IH; intros k; apply (H (S k))).
      now rewrite Hs.
Qed.

Lemma regex_match_found p s :
  (exists k, match_here p (slice_from k s) <> None) ->
  exists i n, regex_match p s = Some (i, n).
Proof.
  intros [k Hk]. destruct (regex_match p s) as [[i n]|] eqn:E; [eauto|].
  exfalso. apply Hk. now apply regex_match_none.
Qed.








(** ** Numbers *)

Lemma num_eq_refl x : num_eq x x.
Proof. destruct x; simpl; auto. reflexivity. Qed.

Lemma num_eq_sym x y : num_eq x y -> num_eq y x.
Proof. destruct x, y; simpl; auto. intros H; now symmetry. Qed.

Lemma num_eq_trans x y z : num_eq x y -> num_eq y z -> num_eq x z.
Proof.
  destruct x, y, z; simpl; auto; try contradiction.
  intros H1 H2. now rewrite H1.
Qed.

Lemma num_eqb_eq x y : num_eqb x y = true <-> num_eq x y.
Proof.
  destruct x, y; simpl; try (split; [discriminate | contradiction]);
    try (split; auto).
  - apply Qeq_bool_iff.
  - apply Qeq_bool_iff.
Qed.

Lemma num_add_comm x y : num_eq (num_add x y) (num_add y x).
Proof. destruct x, y; simpl; auto. apply Qplus_comm. Qed.

Lemma num_add_assoc x y z :
  num_eq (num_add (num_add x y) z) (num_add x (num_add y z)).
Proof.
  destruct x, y, z; simpl; auto. symmetry. apply Qplus_assoc.
Qed.

Lemma num_add_0_r x : num_eq (num_add x (Fin 0)) x.
Proof. destruct x; simpl; auto. apply Qplus_0_r. Qed.

Lemma num_add_0_l x : num_eq (num_add (Fin 0) x) x.
Proof. destruct x; simpl; auto. apply Qplus_0_l. Qed.

Lemma num_add_compat x x' y y' :
  num_eq x x' -> num_eq y y' -> num_eq (num_add x y) (num_add x' y').
Proof.
  destruct x, x'; simpl; try contradiction; intros Hx;
    destruct y, y'; simpl; try contradiction; intros Hy; auto.
  now rewrite Hx, Hy.
Qed.

Lemma signed_inf_compat a a' : (a == a')%Q -> signed_inf a = signed_inf a'.
Proof. intros H. unfold signed_inf. now rewrite H. Qed.

Lemma num_div_compat x x' y :
  num_eq x x' -> num_eq (num_div x y) (num_div x' y).
Proof.
  destruct x as [| | |a], x' as [| | |a']; simpl; try contradiction; intros Hx;
    destruct y as [| | |b]; simpl; auto; try apply num_eq_refl;
    try reflexivity.
  destruct (b ?= 0)%Q.
  - rewrite (signed_inf_compat _ _ Hx). apply num_eq_refl.
  - simpl. now rewrite Hx.
  - simpl. now rewrite Hx.
Qed.

Lemma Qle_bool_compat a a' b : (a == a')%Q -> Qle_bool a b = Qle_bool a' b.
Proof.
  intros H. apply eq_true_iff_eq. rewrite !Qle_bool_iff. now rewrite H.
Qed.

Lemma num_min_compat x x' y :
  num_eq x x' -> num_eq (num_min x y) (num_min x' y).
Proof.
  destruct x as [| | |a], x' as [| | |a']; simpl; try contradiction; intros Hx;
    destruct y as [| | |b]; simpl; auto; try apply num_eq_refl;
    try reflexivity.
  rewrite (Qle_bool_compat _ _ _ Hx).
  destruct (Qle_bool a' b); simpl; [assumption | reflexivity].
Qed.

Lemma num_mul_compat x x' y :
  num_eq x x' -> num_eq (num_mul x y) (num_mul x' y).
Proof.
  destruct x as [| | |a], x' as [| | |a']; simpl; try contradiction; intros Hx;
    destruct y as [| | |b]; simpl; auto; try apply num_eq_refl;
    try reflexivity.
  - rewrite (signed_inf_compat _ _ Hx). apply num_eq_refl.
  - assert (H : (- a == - a')%Q) by now rewrite Hx.
    rewrite (signed_inf_compat _ _ H). apply num_eq_refl.
  - now rewrite Hx.
Qed.

Lemma fold_left_num_add scores x :
  num_eq (fold_left num_add scores x) (num_add x (sumScores scores)).
Proof.
  revert x; induction scores as [|y scores IH]; intros x; simpl.
  - apply num_eq_sym, num_add_0_r.
  - eapply num_eq_trans; [apply IH|].
    eapply num_eq_trans; [apply num_add_assoc|].
    apply num_add_compat; [apply num_eq_refl|].
    apply num_eq_refl.
Qed.

Lemma num_of_nat_S n :
  (inject_Z (Z.of_nat (S n)) == inject_Z (Z.of_nat n) + 1)%Q.
Proof. rewrite Nat2Z.inj_succ. unfold Z.succ. now rewrite inject_Z_plus. Qed.

Lemma num_of_nat_nonneg n : (0 <= inject_Z (Z.of_nat n))%Q.
Proof.
  change 0%Q with (inject_Z 0). rewrite <- Zle_Qle. apply Nat2Z.is_nonneg.
Qed.

Lemma num_of_nat_pos n : 0 < n -> (0 < inject_Z (Z.of_nat n))%Q.
Proof.
  intros H. change 0%Q with (inject_Z 0). rewrite <- Zlt_Qlt. lia.
Qed.

Lemma num_of_nat_le m n : m <= n -> (inject_Z (Z.of_nat m) <= inject_Z (Z.of_nat n))%Q.
Proof. intros H. rewrite <- Zle_Qle. lia. Qed.

Lemma fold_left_between lo hi scores a :
  Forall (between lo hi) scores ->
  exists q,
    fold_left num_add scores (Fin a) = Fin q
    /\ (a + lo * inject_Z (Z.of_nat (length scores)) <= q
        <= a + hi * inject_Z (Z.of_nat (length scores)))%Q.
Proof.
  intros H; revert a; induction H as [|x scores Hx H IH]; intros a.
  - exists a. split; [reflexivity|].
    change (inject_Z (Z.of_nat (length (@nil num)))) with (0 # 1)%Q. lra.
  - destruct x as [| | |b]; simpl in Hx; try contradiction.
    destruct (IH (a + b)%Q) as [q [Hq Hb]].
    exists q. split; [exact Hq|].
    cbn [length]. rewrite num_of_nat_S. lra.
Qed.

Lemma divide_by_length lo hi q n :
  0 < n ->
  (lo * inject_Z (Z.of_nat n) <= q <= hi * inject_Z (Z.of_nat n))%Q ->
  between lo hi (num_div (Fin q) (num_of_nat n)).
Proof.
  intros Hn [Hlo Hhi]. pose proof (num_of_nat_pos n Hn) as Hpos.
  unfold num_of_nat. simpl.
  destruct (inject_Z (Z.of_nat n) ?= 0)%Q eqn:E.
  - apply Qeq_alt in E. lra.
  - apply Qlt_alt in E. lra.
  - simpl. split.
    + apply Qle_shift_div_l; assumption.
    + apply Qle_shift_div_r; assumption.
Qed.

(** ** The reference extractor meets the properties asked of the package *)

Lemma extract_model_tokens_are_words : tokens_are_words extract_model.
Proof.
  intros text token. unfold extractKeywords, extract_model. simpl.
  intros H. apply uniq_In, in_map_iff in H. destruct H as [w [<- Hw]].
  unfold toLowerCase.
  rewrite (str_exists_str_map isWhiteSpace toLowerChar w isWhiteSpace_toLowerChar).
  now apply (words_no_space text).
Qed.

(** ** Section scores *)

Section Scoring.

Variable extract : string -> ExtractOptions -> list string.

Lemma tallyOverall_fold content sections t :
  tallyOverall (fold_left (tallySection extract content) sections t)
  = fold_left num_add
      (map (fun section => score (evaluateSection extract content section))
         sections)
      (tallyOverall t).
Proof.
  revert t; induction sections as [|s sections IH]; intros t; simpl.
  - reflexivity.
  - now rewrite IH.
Qed.

Lemma missing_and_found keywordsFound section :
  length (missingIn keywordsFound section) + foundCount keywordsFound section
  = length (requiredKeywords section).
Proof.
  unfold missingIn, foundCount.
  induction (requiredKeywords section) as [|k ks IH]; simpl; [reflexivity|].
  destruct (includes keywordsFound (toLowerCase k)); simpl; lia.
Qed.

Lemma missing_le keywordsFound section :
  length (missingIn keywordsFound section)
  <= length (requiredKeywords section).
Proof. pose proof (missing_and_found keywordsFound section). lia. Qed.

(** The value of [keywordScore] when there is a required keyword. *)
Lemma keywordScore_value missing required :
  0 < length required ->
  keywordScore missing required
  = Fin (1 + - (inject_Z (Z.of_nat (length missing))
                / inject_Z (Z.of_nat (length required)))).
Proof.
  intros H. pose proof (num_of_nat_pos _ H) as Hpos.
  unfold keywordScore, num_sub, num_of_nat. simpl.
  destruct (inject_Z (Z.of_nat (length required)) ?= 0)%Q eqn:E.
  - apply Qeq_alt in E. lra.
  - apply Qlt_alt in E. lra.
  - reflexivity.
Qed.

Lemma keywordScore_no_keywords missing :
  keywordScore missing [] = match missing with [] => NaN | _ => NInf end.
Proof. destruct missing; reflexivity. Qed.

Lemma ratio_bounds m n :
  m <= n -> 0 < n ->
  (0 <= inject_Z (Z.of_nat m) / inject_Z (Z.of_nat n) <= 1)%Q.
Proof.
  intros Hmn Hn. pose proof (num_of_nat_pos n Hn) as Hpos.
  pose proof (num_of_nat_nonneg m) as Hm.
  pose proof (num_of_nat_le m n Hmn) as Hle.
  split.
  - apply Qle_shift_div_l; [assumption | lra].
  - apply Qle_shift_div_r; [assumption | lra].
Qed.

(** The score of a section text, for a section with a required keyword. *)
Lemma scoreSectionText_value text section :
  0 < length (requiredKeywords section) ->
  score (scoreSectionText extract text section)
  = Fin ((if minWordCount section <=? length (words text)
          then 0 + (1 # 2) else 0)
         + (1 + - (inject_Z (Z.of_nat (length
                      (missingIn (extractKeywords extract text) section)))
                   / inject_Z (Z.of_nat (length (requiredKeywords section)))))
           * (1 # 2)).
Proof.
  intros H. unfold scoreSectionText. cbn [score].
  rewrite (keywordScore_value _ _ H).
  destruct (minWordCount section <=? length (words text)); reflexivity.
Qed.

Lemma scoreSectionText_between text section :
  0 < length (requiredKeywords section) ->
  between 0 1 (score (scoreSectionText extract text section)).
Proof.
  intros H. rewrite (scoreSectionText_value text section H).
  pose proof (ratio_bounds _ _
                (missing_le (extractKeywords extract text) section) H) as Hr.
  simpl.
  destruct (minWordCount section <=? length (words text)); lra.
Qed.

Lemma evaluateSection_between content section :
  0 < length (requiredKeywords section) ->
  between 0 1 (score (evaluateSection extract content section)).
Proof.
  intros H. unfold evaluateSection.
  destruct (regex_match (sectionRegex section) content) as [m|].
  - now apply scoreSectionText_between.
  - simpl. lra.
Qed.

Lemma nothing_missing keywordsFound section :
  forallb
    (fun keyword => includes keywordsFound (toLowerCase keyword))
    (requiredKeywords section) = true ->
  missingIn keywordsFound section = [].
Proof.
  unfold missingIn.
  induction (requiredKeywords section) as [|k ks IH]; simpl; [reflexivity|].
  intros H. apply andb_true_iff in H. destruct H as [H1 H2].
  rewrite H1. simpl. auto.
Qed.

(** A section text with enough words and no keyword missing scores 1. *)
Lemma scoreSectionText_full text section :
  0 < length (requiredKeywords section) ->
  minWordCount section <= length (words text) ->
  forallb
    (fun keyword =>
       includes (extractKeywords extract text) (toLowerCase keyword))
    (requiredKeywords section) = true ->
  between 1 1 (score (scoreSectionText extract text section)).
Proof.
  intros H Hw Hk. rewrite (scoreSectionText_value text section H).
  apply Nat.leb_le in Hw. rewrite Hw.
  rewrite (nothing_missing _ _ Hk). simpl.
  assert (Hz : (inject_Z 0
                / inject_Z (Z.of_nat (length (requiredKeywords section)))
                == 0)%Q).
  { unfold Qdiv. change (inject_Z 0) with 0%Q. ring. }
  rewrite Hz. lra.
Qed.

End Scoring.

(** ** The aggregation of a document *)

Lemma between_leb lo hi x :
  between lo hi x -> num_leb (Fin lo) x = true /\ num_leb x (Fin hi) = true.
Proof.
  destruct x as [| | |q]; simpl; try contradiction.
  intros [H1 H2]. now rewrite !Qle_bool_iff.
Qed.

Lemma capped_percentage_between average (meetsMinimum : bool) :
  between 0 1 average ->
  between 0 100
    (num_mul
       (num_min (if meetsMinimum then num_add average (Fin (1 # 10)) else average)
          (Fin 1))
       (Fin 100)).
Proof.
  destruct average as [| | |q]; simpl; try contradiction. intros Hq.
  destruct meetsMinimum; simpl.
  - destruct (Qle_bool (q + (1 # 10)) 1) eqn:E; simpl; [|lra].
    apply Qle_bool_iff in E. lra.
  - destruct (Qle_bool q 1) eqn:E; simpl; lra.
Qed.

Lemma capped_percentage_full average :
  between 1 1 average ->
  num_eq
    (num_mul (num_min (num_add average (Fin (1 # 10))) (Fin 1)) (Fin 100))
    (Fin 100).
Proof.
  destruct average as [| | |q]; simpl; try contradiction. intros Hq.
  destruct (Qle_bool (q + (1 # 10)) 1) eqn:E; simpl; [|lra].
  apply Qle_bool_iff in E. lra.
Qed.

Lemma capped_percentage_at_most_100 x :
  num_ltb (Fin 100) (num_mul (num_min x (Fin 1)) (Fin 100)) = false.
Proof.
  destruct x as [| | |q]; try reflexivity. simpl.
  destruct (Qle_bool q 1) eqn:E; simpl; [|reflexivity].
  apply Qle_bool_iff in E. apply negb_false_iff, Qle_bool_iff. lra.
Qed.

Lemma between_one x : between 1 1 x -> num_eq x (Fin 1).
Proof.
  destruct x as [| | |q]; simpl; try contradiction. intros H. lra.
Qed.

Lemma num_div_of_nat a n :
  0 < n ->
  num_div (num_of_nat a) (num_of_nat n)
  = Fin (inject_Z (Z.of_nat a) / inject_Z (Z.of_nat n)).
Proof.
  intros H. pose proof (num_of_nat_pos _ H) as Hpos.
  unfold num_of_nat. simpl.
  destruct (inject_Z (Z.of_nat n) ?= 0)%Q eqn:E.
  - apply Qeq_alt in E. lra.
  - apply Qlt_alt in E. lra.
  - reflexivity.
Qed.

Section Presence.

Variable extract : string -> ExtractOptions -> list string.

(** In the exact arithmetic of [num], the score of a section text is the
    sum of the two contributions of the specification. *)
Lemma scoreSectionText_formula text section :
  num_eq (score (scoreSectionText extract text section))
    (sectionFormula (length (words text)) (extractKeywords extract text)
       section).
Proof.
  destruct (requiredKeywords section) as [|k ks] eqn:Hreq.
  - unfold scoreSectionText, sectionFormula, missingIn, foundCount.
    cbn [score]. rewrite Hreq. simpl.
    destruct (minWordCount section <=? length (words text)); exact I.
  - assert (Hn : 0 < length (requiredKeywords section))
      by (rewrite Hreq; simpl; lia).
    rewrite (scoreSectionText_value extract text section Hn).
    unfold sectionFormula. rewrite (num_div_of_nat _ _ Hn).
    pose proof (missing_and_found (extractKeywords extract text) section)
      as Hsum.
    pose proof (num_of_nat_pos _ Hn) as Hpos.
    set (m := length (missingIn (extractKeywords extract text) section)) in *.
    set (f := foundCount (extractKeywords extract text) section) in *.
    set (n := length (requiredKeywords section)) in *.
    assert (HN : (inject_Z (Z.of_nat n)
                  == inject_Z (Z.of_nat m) + inject_Z (Z.of_nat f))%Q).
    { rewrite <- inject_Z_plus, <- Nat2Z.inj_add. now rewrite Hsum. }
    assert (Hf : (inject_Z (Z.of_nat f) / inject_Z (Z.of_nat n)
                  == 1 - inject_Z (Z.of_nat m) / inject_Z (Z.of_nat n))%Q).
    { assert (HF : (inject_Z (Z.of_nat f)
                    == inject_Z (Z.of_nat n) - inject_Z (Z.of_nat m))%Q)
        by lra.
      rewrite HF. field. lra. }
    destruct (minWordCount section <=? length (words text)); simpl;
      rewrite Hf; ring.
Qed.

Lemma fullyMet_scores_one content section :
  0 < length (requiredKeywords section) ->
  fullyMet extract content section = true ->
  between 1 1 (score (evaluateSection extract content section)).
Proof.
  intros Hn. unfold fullyMet, evaluateSection.
  destruct (regex_match (sectionRegex section) content) as [m|];
    [|discriminate].
  intros H. apply andb_true_iff in H. destruct H as [Hw Hk].
  apply Nat.leb_le in Hw. now apply scoreSectionText_full.
Qed.

End Presence.

Section Aggregation.

Variable extract : string -> ExtractOptions -> list string.

(** [overallScore] after the division, before the bonus. *)
Lemma average_between lo hi content documentType :
  0 < length (DocumentType.sections documentType) ->
  Forall
    (fun section =>
       between lo hi (score (evaluateSection extract content section)))
    (DocumentType.sections documentType) ->
  between lo hi
    (num_div
       (tallyOverall
          (fold_left (tallySection extract content)
             (DocumentType.sections documentType) tally0))
       (num_of_nat (length (DocumentType.sections documentType)))).
Proof.
  intros Hn Hall. rewrite tallyOverall_fold. cbn [tallyOverall tally0].
  assert (Hs : Forall (between lo hi)
                 (map (fun section =>
                         score (evaluateSection extract content section))
                    (DocumentType.sections documentType))).
  { apply List.Forall_map. exact Hall. }
  destruct (fold_left_between lo hi _ 0%Q Hs) as [q [Hq Hb]].
  rewrite Hq. rewrite length_map in Hb.
  apply divide_by_length; [assumption | lra].
Qed.

Lemma overallScore_unfold content documentType :
  EvaluationResult.overallScore (evaluateDocument extract content documentType)
  = num_mul
      (num_min
         (if DocumentType.overallMinWordCount documentType
             <=? length (words content)
          then num_add
                 (num_div
                    (tallyOverall
                       (fold_left (tallySection extract content)
                          (DocumentType.sections documentType) tally0))
                    (num_of_nat (length (DocumentType.sections documentType))))
                 (Fin (1 # 10))
          else num_div
                 (tallyOverall
                    (fold_left (tallySection extract content)
                       (DocumentType.sections documentType) tally0))
                 (num_of_nat (length (DocumentType.sections documentType))))
         (Fin 1))
      (Fin 100).
Proof. reflexivity. Qed.

End Aggregation.

(** * The claims of the specification *)

Section Claims.

Variable extract : string -> ExtractOptions -> list string.

(** C2.  For every document and every rubric, the overall score is the
    minimum of 1 and of the average of the section scores plus the bonus
    (0.1 when the word count of the document reaches the overall minimum of
    the rubric, 0 otherwise), multiplied by 100.
    The names of the sections are literal patterns. *)
Theorem overallScore_formula content documentType :
  plain_rubric documentType = true ->
  num_eq
    (EvaluationResult.overallScore
       (evaluateDocument extract content documentType))
    (documentFormula (sectionScoresOf extract content documentType)
       (DocumentType.overallMinWordCount documentType
        <=? length (words content))).
Proof.
  intros _. rewrite overallScore_unfold. unfold documentFormula.
  apply num_mul_compat, num_min_compat.
  rewrite tallyOverall_fold. cbn [tallyOverall tally0].
  fold (sectionScoresOf extract content documentType).
  assert (Hav : num_eq
            (num_div
               (fold_left num_add
                  (sectionScoresOf extract content documentType) (Fin 0))
               (num_of_nat (length (DocumentType.sections documentType))))
            (averageScore (sectionScoresOf extract content documentType))).
  { unfold averageScore, sectionScoresOf at 3. rewrite length_map.
    apply num_div_compat.
    eapply num_eq_trans; [apply fold_left_num_add | apply num_add_0_l]. }
  destruct (DocumentType.overallMinWordCount documentType
            <=? length (words content)).
  - apply num_add_compat; [exact Hav | apply num_eq_refl].
  - eapply num_eq_trans; [exact Hav | apply num_eq_sym, num_add_0_r].
Qed.

(** C8.  For every document and every rubric, the overall score never
    exceeds 100: the comparison [100 < overallScore] is false.
    The names of the sections are literal patterns. *)
Theorem overallScore_at_most_100 content documentType :
  plain_rubric documentType = true ->
  num_ltb (Fin 100)
    (EvaluationResult.overallScore
       (evaluateDocument extract content documentType)) = false.
Proof.
  intros _. rewrite overallScore_unfold. apply capped_percentage_at_most_100.
Qed.

(** C6.  If no header of the document matches the header pattern of the
    section, the section scores 0 and all of its required keywords are
    listed as missing.
    The names of the sections are literal patterns. *)
Theorem absent_section_scores_zero content section :
  plain_name (name section) = true ->
  (forall k,
     match_here (sectionRegex section) (slice_from k content) = None) ->
  score (evaluateSection extract content section) = Fin 0
  /\ missingKeywords (evaluateSection extract content section)
     = requiredKeywords section.
Proof.
  intros _ H. apply regex_match_none in H.
  unfold evaluateSection. rewrite H. split; reflexivity.
Qed.

(** C4.  When a header [## <number>. <name>] of the section occurs in the
    document, in any letter case, the text that [evaluateSection] scores is
    the substring of the document from the first such header up to the next
    header [## <number>. ] after it, or up to the end of the document when
    no later header matches.
    The names of the sections are literal patterns. *)
Theorem section_text_is_header_slice content section :
  plain_name (name section) = true ->
  (exists k,
     match_here (sectionRegex section) (slice_from k content) <> None) ->
  exists i len j,
    first_header_at (sectionRegex section) content i len
    /\ next_header_bound content (i + len) j
    /\ evaluateSection extract content section
       = scoreSectionText extract (substring i (j - i) content) section.
Proof.
  intros _ Hk. destruct (regex_match_found _ _ Hk) as [i [len E]].
  exists i, len. pose proof (regex_match_first _ _ _ _ E) as Hfirst.
  destruct Hfirst as [[Hi Hm] Hfirst].
  pose proof (match_here_le _ _ _ Hm) as Hlen.
  rewrite slice_from_length in Hlen.
  unfold evaluateSection. rewrite E. unfold sectionText.
  rewrite slice_from_add.
  destruct (regex_match nextSectionRegex (slice_from (i + len) content))
    as [[j' l']|] eqn:En.
  - apply regex_match_first in En. destruct En as [[Hj Hmj] Hfj].
    rewrite slice_from_length in Hj. rewrite slice_from_add in Hmj.
    exists (i + len + j'). split; [repeat split; assumption|]. split.
    + split; [lia|]. split.
      * intros k Hk'. specialize (Hfj (k - (i + len))).
        rewrite slice_from_add in Hfj.
        replace (i + len + (k - (i + len))) with k in Hfj by lia.
        apply Hfj. lia.
      * right. rewrite Hmj. discriminate.
    + rewrite slice_to_slice_from.
      replace (i + len + j' - i) with (j' + len) by lia. reflexivity.
  - exists (String.length content). split; [repeat split; assumption|]. split.
    + split; [lia|]. split.
      * intros k Hk'.
        pose proof (proj1 (regex_match_none _ _) En (k - (i + len))) as Hn.
        rewrite slice_from_add in Hn.
        replace (i + len + (k - (i + len))) with k in Hn by lia.
        exact Hn.
      * now left.
    + now rewrite <- slice_from_substring_end.
Qed.


(** A keyword with white space keeps a section from being fully met. *)
Lemma spaced_keyword_not_met content section keyword :
  tokens_are_words extract ->
  In keyword (requiredKeywords section) ->
  str_exists isWhiteSpace keyword = true ->
  fullyMet extract content section = false.
Proof.
  intros Hex Hin Hsp. unfold fullyMet.
  destruct (regex_match (sectionRegex section) content) as [m|];
    [|reflexivity].
  apply andb_false_iff. right.
  destruct (forallb _ (requiredKeywords section)) eqn:E; [|reflexivity].
  rewrite forallb_forall in E. specialize (E keyword Hin).
  apply includes_In, Hex in E. unfold toLowerCase in E.
  rewrite (str_exists_str_map _ _ _ isWhiteSpace_toLowerChar) in E.
  congruence.
Qed.


(** C9.  A required keyword that contains white space, such as "next
    steps" in the Conclusion section of the rubric, is never found, because
    the extracted tokens are single words: it is always listed among the
    missing keywords of its section, the keyword contribution
    [keywordScore * 0.5] of that section is strictly less than 0.5, and the
    section never scores 1.
    The names of the sections are literal patterns. *)
Theorem spaced_keyword_never_found content section keyword :
  tokens_are_words extract ->
  plain_name (name section) = true ->
  In keyword (requiredKeywords section) ->
  str_exists isWhiteSpace keyword = true ->
  let r := evaluateSection extract content section in
  In keyword (missingKeywords r)
  /\ num_ltb
       (num_mul (keywordScore (missingKeywords r) (requiredKeywords section))
          half)
       half = true
  /\ num_ltb (score r) (Fin 1) = true.
Proof.
  intros Hex _ Hin Hsp r.
  assert (Hn : 0 < length (requiredKeywords section)).
  { destruct (requiredKeywords section); [contradiction | simpl; lia]. }
  assert (Hcontrib : forall missing,
             In keyword missing ->
             exists q,
               num_mul (keywordScore missing (requiredKeywords section)) half
               = Fin q /\ (q < 1 # 2)%Q).
  { intros missing Hmiss.
    assert (Hm : 0 < length missing)
      by (destruct missing; [contradiction | simpl; lia]).
    rewrite (keywordScore_value _ _ Hn). simpl.
    eexists. split; [reflexivity|].
    pose proof (num_of_nat_pos _ Hn) as Hpos.
    pose proof (num_of_nat_pos _ Hm) as Hmpos.
    assert (Hr : (0 < inject_Z (Z.of_nat (length missing))
                      / inject_Z (Z.of_nat (length (requiredKeywords section))))%Q).
    { apply Qlt_shift_div_l; [assumption | lra]. }
    lra. }
  assert (Hlt : forall q, (q < 1 # 2)%Q -> negb (Qle_bool (1 # 2) q) = true).
  { intros q Hq. apply negb_true_iff.
    destruct (Qle_bool (1 # 2) q) eqn:E; [|reflexivity].
    apply Qle_bool_iff in E. lra. }
  subst r. unfold evaluateSection.
  destruct (regex_match (sectionRegex section) content) as [m|].
  - unfold scoreSectionText. cbn [score missingKeywords].
    set (text := sectionText content m).
    assert (Hmiss : In keyword (missingIn (extractKeywords extract text) section)).
    { unfold missingIn. apply filter_In. split; [assumption|].
      apply negb_true_iff.
      destruct (includes (extractKeywords extract text) (toLowerCase keyword))
        eqn:E; [|reflexivity].
      apply includes_In, Hex in E. unfold toLowerCase in E.
      rewrite (str_exists_str_map _ _ _ isWhiteSpace_toLowerChar) in E.
      congruence. }
    split; [exact Hmiss|].
    destruct (Hcontrib _ Hmiss) as [q [Hq Hlt']]. rewrite Hq.
    split; [simpl; now apply Hlt|].
    destruct (minWordCount section <=? length (words text)); simpl.
    + apply negb_true_iff.
      destruct (Qle_bool 1 (0 + (1 # 2) + q)) eqn:E; [|reflexivity].
      apply Qle_bool_iff in E. lra.
    + apply negb_true_iff.
      destruct (Qle_bool 1 (0 + q)) eqn:E; [|reflexivity].
      apply Qle_bool_iff in E. lra.
  - cbn [score missingKeywords]. split; [exact Hin|].
    destruct (Hcontrib _ Hin) as [q [Hq Hlt']]. rewrite Hq.
    split; [simpl; now apply Hlt | reflexivity].
Qed.

(** C5, amended.  For every section definition with at least one required
    keyword: if the section is present in the document with a body of
    exactly the minimum word count of the section and every required
    keyword is found in it, the section scores 1.
    The names of the sections are literal patterns. *)
Theorem exact_minimum_scores_one content section sectionMatch :
  plain_name (name section) = true ->
  0 < length (requiredKeywords section) ->
  regex_match (sectionRegex section) content = Some sectionMatch ->
  length (words (sectionText content sectionMatch)) = minWordCount section ->
  forallb
    (fun keyword =>
       includes (extractKeywords extract (sectionText content sectionMatch))
         (toLowerCase keyword))
    (requiredKeywords section) = true ->
  num_eq (score (evaluateSection extract content section)) (Fin 1).
Proof.
  intros _ Hn E Hw Hk. unfold evaluateSection. rewrite E.
  apply between_one.
  apply scoreSectionText_full; [assumption | lia | assumption].
Qed.

(** C3, amended.  For every document and every section definition: when
    the header of the section is found, the score is (0.5 if the word count
    of the section text reaches the minimum of the section, else 0) plus
    (1 - m / required) * 0.5, where m is the number of required keywords
    minus the number of those that are found -- the subtraction from 1 is
    how the code computes the keyword share; when the header is not found,
    the score is 0; and when the section has at least one required keyword,
    the score lies in [0, 1].
    The names of the sections are literal patterns. *)
Theorem section_score_as_computed content section :
  plain_name (name section) = true ->
  (forall sectionMatch,
     regex_match (sectionRegex section) content = Some sectionMatch ->
     num_eq (score (evaluateSection extract content section))
       (sectionScoreAsComputed
          (length (words (sectionText content sectionMatch)))
          (extractKeywords extract (sectionText content sectionMatch))
          section))
  /\ (regex_match (sectionRegex section) content = None ->
      score (evaluateSection extract content section) = Fin 0)
  /\ (0 < length (requiredKeywords section) ->
      num_leb (Fin 0) (score (evaluateSection extract content section)) = true
      /\ num_leb (score (evaluateSection extract content section)) (Fin 1)
         = true).
Proof.
  intros _. split; [|split].
  - intros m E. unfold evaluateSection. rewrite E.
    unfold scoreSectionText, sectionScoreAsComputed, keywordScore.
    cbn [score].
    set (text := sectionText content m).
    pose proof (missing_and_found (extractKeywords extract text) section) as Hs.
    replace (length (requiredKeywords section)
             - foundCount (extractKeywords extract text) section)
      with (length (missingIn (extractKeywords extract text) section)) by lia.
    apply num_add_compat; [|apply num_eq_refl].
    destruct (minWordCount section <=? length (words text));
      [apply num_add_0_l | apply num_eq_refl].
  - intros E. unfold evaluateSection. now rewrite E.
  - intros Hn. apply between_leb. now apply evaluateSection_between.
Qed.

(** C10, amended.  [evaluateDocument] divides the summed section scores by
    the number of sections of the rubric without a guard: when the rubric
    has at least one section and every section has at least one required
    keyword, the overall score lies in [0, 100]; when the rubric has no
    section, the overall score is NaN.
    The names of the sections are literal patterns. *)
Theorem overallScore_range content documentType :
  plain_rubric documentType = true ->
  (0 < length (DocumentType.sections documentType) ->
   Forall (fun section => 0 < length (requiredKeywords section))
     (DocumentType.sections documentType) ->
   num_leb (Fin 0)
     (EvaluationResult.overallScore
        (evaluateDocument extract content documentType)) = true
   /\ num_leb
        (EvaluationResult.overallScore
           (evaluateDocument extract content documentType))
        (Fin 100) = true)
  /\ (DocumentType.sections documentType = [] ->
      EvaluationResult.overallScore
        (evaluateDocument extract content documentType) = NaN).
Proof.
  intros _. split.
  - intros Hn Hall. apply between_leb. rewrite overallScore_unfold.
    apply capped_percentage_between, average_between; [assumption|].
    eapply List.Forall_impl; [|exact Hall].
    intros section Hs. now apply evaluateSection_between.
  - intros Hnil. rewrite overallScore_unfold, Hnil. simpl.
    destruct (DocumentType.overallMinWordCount documentType
              <=? length (words content)); reflexivity.
Qed.

(** Full marks for any rubric.  For every rubric with at least one section,
    every section
    of which has at least one required keyword: if every section is present
    in the document with at least its minimum word count and all of its
    required keywords found, and the word count of the document is at least
    the overall minimum, the overall score is 100.
    The names of the sections are literal patterns. *)
Lemma full_marks_document content documentType :
  plain_rubric documentType = true ->
  0 < length (DocumentType.sections documentType) ->
  Forall (fun section => 0 < length (requiredKeywords section))
    (DocumentType.sections documentType) ->
  forallb (fullyMet extract content) (DocumentType.sections documentType)
  = true ->
  DocumentType.overallMinWordCount documentType <= length (words content) ->
  num_eq
    (EvaluationResult.overallScore
       (evaluateDocument extract content documentType))
    (Fin 100).
Proof.
  intros _ Hn Hkeys Hmet Hwords. rewrite overallScore_unfold.
  apply Nat.leb_le in Hwords. rewrite Hwords.
  apply capped_percentage_full, average_between; [assumption|].
  rewrite forallb_forall in Hmet. rewrite List.Forall_forall in Hkeys.
  apply List.Forall_forall. intros section Hin.
  now apply fullyMet_scores_one; [apply Hkeys | apply Hmet].
Qed.

(** ** The rubric of the program *)

Lemma fullyMet_metUpToSpaced content section :
  fullyMet extract content section = true ->
  metUpToSpaced extract content section = true.
Proof.
  unfold fullyMet, metUpToSpaced.
  destruct (regex_match (sectionRegex section) content) as [m|];
    [|discriminate].
  cbv zeta. intros H. apply andb_true_iff in H. destruct H as [Hw Hk].
  rewrite Hw. cbn [andb]. apply forallb_forall. intros k Hin.
  rewrite forallb_forall in Hk. now rewrite (Hk k Hin).
Qed.

Lemma metUpToSpaced_fullyMet content section :
  forallb (fun keyword => negb (str_exists isWhiteSpace keyword))
    (requiredKeywords section) = true ->
  metUpToSpaced extract content section = true ->
  fullyMet extract content section = true.
Proof.
  intros Hplain. unfold fullyMet, metUpToSpaced.
  destruct (regex_match (sectionRegex section) content) as [m|];
    [|discriminate].
  cbv zeta. intros H. apply andb_true_iff in H. destruct H as [Hw Hk].
  rewrite Hw. cbn [andb]. apply forallb_forall. intros k Hin.
  rewrite forallb_forall in Hk, Hplain.
  specialize (Hk k Hin). specialize (Hplain k Hin).
  apply negb_true_iff in Hplain. rewrite Hplain in Hk.
  now rewrite orb_false_r in Hk.
Qed.

(** Only keywords with white space are missing from a section that is met
    up to them. *)
Lemma missing_up_to_spaced keywordsFound section :
  forallb
    (fun keyword =>
       includes keywordsFound (toLowerCase keyword)
       || str_exists isWhiteSpace keyword)
    (requiredKeywords section) = true ->
  length (missingIn keywordsFound section)
  <= length (List.filter (str_exists isWhiteSpace) (requiredKeywords section)).
Proof.
  unfold missingIn.
  induction (requiredKeywords section) as [|k ks IH]; cbn [forallb List.filter];
    [intros _; apply Nat.le_refl|].
  intros H. apply andb_true_iff in H. destruct H as [H1 H2]. specialize (IH H2).
  destruct (includes keywordsFound (toLowerCase k)); cbn [negb orb] in *.
  - destruct (str_exists isWhiteSpace k); cbn [length]; lia.
  - rewrite H1. cbn [length]. lia.
Qed.

(** A section that is met up to its keywords with white space, which are at
    most a third of its keywords, scores at least 5/6. *)
Lemma metUpToSpaced_score content section :
  0 < length (requiredKeywords section) ->
  3 * length (List.filter (str_exists isWhiteSpace) (requiredKeywords section))
  <= length (requiredKeywords section) ->
  metUpToSpaced extract content section = true ->
  between (5 # 6) 1 (score (evaluateSection extract content section)).
Proof.
  intros Hn Hs. unfold metUpToSpaced, evaluateSection.
  destruct (regex_match (sectionRegex section) content) as [m|];
    [|discriminate].
  cbv zeta. intros H. apply andb_true_iff in H. destruct H as [Hw Hk].
  rewrite (scoreSectionText_value extract _ section Hn). rewrite Hw.
  pose proof (missing_up_to_spaced _ _ Hk) as Hm.
  set (missing :=
         length (missingIn (extractKeywords extract (sectionText content m))
                   section)) in *.
  set (spaced :=
         length (List.filter (str_exists isWhiteSpace)
                   (requiredKeywords section))) in *.
  set (required := length (requiredKeywords section)) in *.
  pose proof (num_of_nat_pos _ Hn) as Hpos.
  pose proof (num_of_nat_nonneg missing) as Hnonneg.
  assert (H3 : (inject_Z 3 * inject_Z (Z.of_nat missing)
                <= inject_Z (Z.of_nat required))%Q).
  { rewrite <- inject_Z_mult, <- Zle_Qle. lia. }
  change (inject_Z 3) with (3 # 1)%Q in H3.
  assert (Hr : (0 <= inject_Z (Z.of_nat missing) / inject_Z (Z.of_nat required)
                <= 1 # 3)%Q).
  { split.
    - apply Qle_shift_div_l; [assumption | lra].
    - apply Qle_shift_div_r; [assumption | lra]. }
  simpl. lra.
Qed.

(** The sum of scores that are at most 1 and have each a lower bound. *)
Lemma fold_left_above los scores a :
  Forall2 (fun lo x => between lo 1 x) los scores ->
  exists q,
    fold_left num_add scores (Fin a) = Fin q
    /\ (a + fold_right Qplus 0%Q los <= q
        <= a + inject_Z (Z.of_nat (length scores)))%Q.
Proof.
  intros H; revert a; induction H as [|lo x los scores Hx H IH]; intros a.
  - exists a. split; [reflexivity|].
    change (inject_Z (Z.of_nat (length (@nil num)))) with (0 # 1)%Q.
    cbn [fold_right]. lra.
  - destruct x as [| | |b]; simpl in Hx; try contradiction.
    destruct (IH (a + b)%Q) as [q [Hq Hb]].
    exists q. split; [exact Hq|].
    cbn [length fold_right]. rewrite num_of_nat_S. lra.
Qed.

(** With the bonus, an average of 0.9 or more is capped to 100. *)
Lemma capped_percentage_bonus lo average :
  (9 # 10 <= lo)%Q ->
  between lo 1 average ->
  num_eq
    (num_mul (num_min (num_add average (Fin (1 # 10))) (Fin 1)) (Fin 100))
    (Fin 100).
Proof.
  intros Hlo. destruct average as [| | |q]; simpl; try contradiction. intros Hq.
  destruct (Qle_bool (q + (1 # 10)) 1) eqn:E; simpl; [|lra].
  apply Qle_bool_iff in E. lra.
Qed.

(** C1.  The rubric of the program is [projectOverviewType], the only one
    that [evaluateDocument] is called with.  For every document whose word
    count is at least the overall minimum of 500: if every section of the
    rubric is present with at least its minimum word count and all of its
    required keywords found, the overall score is 100; and so it is already
    when the only keywords that are not found are those with white space
    ("next steps" of the Conclusion section, which no extractor of single
    words ever returns). *)
Theorem rubric_full_marks content :
  DocumentType.overallMinWordCount projectOverviewType
  <= length (words content) ->
  (forallb (fullyMet extract content)
     (DocumentType.sections projectOverviewType) = true ->
   num_eq
     (EvaluationResult.overallScore
        (evaluateDocument extract content projectOverviewType))
     (Fin 100))
  /\ (forallb (metUpToSpaced extract content)
        (DocumentType.sections projectOverviewType) = true ->
      num_eq
        (EvaluationResult.overallScore
           (evaluateDocument extract content projectOverviewType))
        (Fin 100)).
Proof.
  intros Hwords.
  assert (B : forallb (metUpToSpaced extract content)
                (DocumentType.sections projectOverviewType) = true ->
              num_eq
                (EvaluationResult.overallScore
                   (evaluateDocument extract content projectOverviewType))
                (Fin 100)).
  { intros Hmet. rewrite overallScore_unfold.
    apply Nat.leb_le in Hwords. rewrite Hwords.
    apply (capped_percentage_bonus (41 # 42)); [lra|].
    rewrite tallyOverall_fold. cbn [tallyOverall tally0].
    assert (Hscores :
              Forall2 (fun lo x => between lo 1 x)
                [1; 1; 1; 1; 1; 1; 5 # 6]%Q
                (map (fun section =>
                        score (evaluateSection extract content section))
                   (DocumentType.sections projectOverviewType))).
    { unfold projectOverviewType in *.
      cbn [DocumentType.sections forallb map] in *.
      repeat (apply andb_true_iff in Hmet;
              let H := fresh "Hsection" in destruct Hmet as [H Hmet]).
      repeat match goal with |- Forall2 _ _ _ => constructor end;
        first
          [ apply (fullyMet_scores_one extract);
            [cbn [requiredKeywords length]; lia
            | apply metUpToSpaced_fullyMet; [reflexivity | assumption]]
          | apply metUpToSpaced_score;
            [cbn [requiredKeywords length]; lia
            | vm_compute; lia
            | assumption] ]. }
    destruct (fold_left_above _ _ 0%Q Hscores) as [q [Hq Hb]].
    rewrite Hq. rewrite length_map in Hb.
    change (length (DocumentType.sections projectOverviewType)) with 7 in *.
    apply divide_by_length; [lia|].
    change (inject_Z (Z.of_nat 7)) with (7 # 1)%Q in *.
    cbn [fold_right] in Hb. lra. }
  split; [|exact B].
  intros Hmet. apply B. apply forallb_forall. intros section Hin.
  rewrite forallb_forall in Hmet.
  apply fullyMet_metUpToSpaced, Hmet, Hin.
Qed.

End Claims.

(** * The claims on sample documents *)

Example conclusion_in_rubric :
  In conclusion (DocumentType.sections projectOverviewType).
Proof. simpl. tauto. Qed.

Example give_back_one_space :
  match_here [OneOrMore isWhiteSpace; One (lit true " "); One (lit true "x")]
    "    x" = Some 5.
Proof. reflexivity. Qed.

(** The rubric of the program: no document fully meets its Conclusion
    section, whose keyword "next steps" is never a token ... *)
Lemma conclusion_never_fully_met extract content :
  tokens_are_words extract ->
  fullyMet extract content conclusion = false.
Proof.
  intros Hex.
  apply (spaced_keyword_not_met extract content conclusion "next steps" Hex);
    [simpl; tauto | reflexivity].
Qed.

(** ... and a document that has every header, every keyword and every word
    count still gets 100, with "next steps" reported as missing. *)
Example rubricDoc_overallScore :
  num_eqb
    (EvaluationResult.overallScore
       (evaluateDocument extract_model rubricDoc projectOverviewType))
    (Fin 100) = true.
Proof. vm_compute. reflexivity. Qed.

Example rubricDoc_missingKeywords :
  map_to_list
    (EvaluationResult.missingKeywords
       (evaluateDocument extract_model rubricDoc projectOverviewType))
  = [("Conclusion", ["next steps"])].
Proof. vm_compute. reflexivity. Qed.

Example rubricDoc_conclusion_score :
  EvaluationResult.sectionScores
    (evaluateDocument extract_model rubricDoc projectOverviewType)
  !! "Conclusion"
  = Some (score (evaluateSection extract_model rubricDoc conclusion)).
Proof. vm_compute. reflexivity. Qed.

Example smallDoc_two_sections :
  EvaluationResult.overallScore
    (evaluateDocument extract_model smallDoc twoSectionType)
  = Fin (124800 # 1280).
Proof. vm_compute. reflexivity. Qed.

Lemma overallScore_formula_witness :
  plain_rubric projectOverviewType = true
  /\ num_eq
       (EvaluationResult.overallScore
          (evaluateDocument extract_model smallDoc projectOverviewType))
       (documentFormula
          (sectionScoresOf extract_model smallDoc projectOverviewType)
          (DocumentType.overallMinWordCount projectOverviewType
           <=? length (words smallDoc))).
Proof.
  split; [reflexivity|].
  apply (overallScore_formula extract_model smallDoc projectOverviewType).
  reflexivity.
Defined.

Lemma overallScore_at_most_100_witness :
  plain_rubric projectOverviewType = true
  /\ num_ltb (Fin 100)
       (EvaluationResult.overallScore
          (evaluateDocument extract_model smallDoc projectOverviewType))
     = false.
Proof.
  split; [reflexivity|].
  apply (overallScore_at_most_100 extract_model smallDoc projectOverviewType).
  reflexivity.
Defined.

Lemma absent_section_scores_zero_witness :
  plain_name (name introOnly) = true
  /\ (forall k,
        match_here (sectionRegex introOnly) (slice_from k strayDoc) = None)
  /\ score (evaluateSection extract_model strayDoc introOnly) = Fin 0
  /\ missingKeywords (evaluateSection extract_model strayDoc introOnly)
     = ["purpose"; "scope"].
Proof.
  assert (H : forall k,
             match_here (sectionRegex introOnly) (slice_from k strayDoc) = None)
    by (apply regex_match_none; vm_compute; reflexivity).
  split; [reflexivity|]. split; [exact H|].
  apply (absent_section_scores_zero extract_model strayDoc introOnly eq_refl H).
Defined.

Lemma section_text_is_header_slice_witness :
  plain_name (name introOnly) = true
  /\ (exists k,
        match_here (sectionRegex introOnly) (slice_from k smallDoc) <> None)
  /\ exists i len j,
       first_header_at (sectionRegex introOnly) smallDoc i len
       /\ next_header_bound smallDoc (i + len) j
       /\ evaluateSection extract_model smallDoc introOnly
          = scoreSectionText extract_model (substring i (j - i) smallDoc)
              introOnly.
Proof.
  assert (H : exists k,
             match_here (sectionRegex introOnly) (slice_from k smallDoc) <> None)
    by (exists 0; vm_compute; discriminate).
  split; [reflexivity|]. split; [exact H|].
  apply (section_text_is_header_slice extract_model smallDoc introOnly eq_refl H).
Defined.

Lemma spaced_keyword_never_found_witness :
  tokens_are_words extract_model
  /\ plain_name (name conclusion) = true
  /\ In "next steps" (requiredKeywords conclusion)
  /\ str_exists isWhiteSpace "next steps" = true
  /\ In "next steps"
       (missingKeywords (evaluateSection extract_model smallDoc conclusion))
  /\ num_ltb
       (num_mul
          (keywordScore
             (missingKeywords (evaluateSection extract_model smallDoc conclusion))
             (requiredKeywords conclusion))
          half)
       half = true
  /\ num_ltb (score (evaluateSection extract_model smallDoc conclusion)) (Fin 1)
     = true.
Proof.
  assert (H : In "next steps" (requiredKeywords conclusion))
    by (simpl; tauto).
  split; [exact extract_model_tokens_are_words|].
  split; [reflexivity|]. split; [exact H|]. split; [reflexivity|].
  apply (spaced_keyword_never_found extract_model smallDoc conclusion
           "next steps" extract_model_tokens_are_words eq_refl H eq_refl).
Defined.

Lemma exact_minimum_scores_one_witness :
  plain_name (name introOnly) = true
  /\ 0 < length (requiredKeywords introOnly)
  /\ regex_match (sectionRegex introOnly) smallDoc = Some (0, 11)
  /\ length (words (sectionText smallDoc (0, 11))) = minWordCount introOnly
  /\ forallb
       (fun keyword =>
          includes (extractKeywords extract_model (sectionText smallDoc (0, 11)))
            (toLowerCase keyword))
       (requiredKeywords introOnly) = true
  /\ num_eq (score (evaluateSection extract_model smallDoc introOnly)) (Fin 1).
Proof.
  assert (Hn : 0 < length (requiredKeywords introOnly)) by (simpl; lia).
  split; [reflexivity|]. split; [exact Hn|].
  split; [vm_compute; reflexivity|]. split; [vm_compute; reflexivity|].
  split; [vm_compute; reflexivity|].
  apply (exact_minimum_scores_one extract_model smallDoc introOnly (0, 11)
           eq_refl Hn);
    vm_compute; reflexivity.
Defined.

(** C5 as stated fails on a section without required keywords: present with
    exactly its minimum of three words and no keyword to find, it scores NaN
    whatever the extractor returns. *)
Lemma exact_minimum_counterexample :
  (plain_name (name unkeyed) = true
   /\ regex_match (sectionRegex unkeyed) notesDoc = Some (0, 11)
   /\ length (words (sectionText notesDoc (0, 11))) = minWordCount unkeyed)
  /\ forall extract,
       forallb
         (fun keyword =>
            includes (extractKeywords extract (sectionText notesDoc (0, 11)))
              (toLowerCase keyword))
         (requiredKeywords unkeyed) = true
       /\ score (evaluateSection extract notesDoc unkeyed) = NaN
       /\ num_eqb (score (evaluateSection extract notesDoc unkeyed)) (Fin 1)
          = false.
Proof.
  split; [repeat split; vm_compute; reflexivity|].
  intros extract. repeat split; vm_compute; reflexivity.
Qed.

Lemma overallScore_range_witness :
  (plain_rubric twoSectionType = true
   /\ 0 < length (DocumentType.sections twoSectionType)
   /\ Forall (fun section => 0 < length (requiredKeywords section))
        (DocumentType.sections twoSectionType)
   /\ num_leb (Fin 0)
        (EvaluationResult.overallScore
           (evaluateDocument extract_model smallDoc twoSectionType)) = true
   /\ num_leb
        (EvaluationResult.overallScore
           (evaluateDocument extract_model smallDoc twoSectionType))
        (Fin 100) = true)
  /\ (plain_rubric emptyType = true
      /\ DocumentType.sections emptyType = []
      /\ EvaluationResult.overallScore
           (evaluateDocument extract_model smallDoc emptyType) = NaN).
Proof.
  assert (Hn : 0 < length (DocumentType.sections twoSectionType))
    by (simpl; lia).
  assert (Hk : Forall (fun section => 0 < length (requiredKeywords section))
                 (DocumentType.sections twoSectionType))
    by (repeat constructor).
  split.
  - split; [reflexivity|]. split; [exact Hn|]. split; [exact Hk|].
    exact (proj1 (overallScore_range extract_model smallDoc twoSectionType
                    eq_refl) Hn Hk).
  - split; [reflexivity|]. split; [reflexivity|].
    exact (proj2 (overallScore_range extract_model smallDoc emptyType eq_refl)
             eq_refl).
Defined.

(** C10 as stated fails on a rubric whose only section has no required
    keyword: the rubric has a section, and the overall score is NaN. *)
Lemma overallScore_range_counterexample :
  (plain_rubric unkeyedType = true
   /\ 0 < length (DocumentType.sections unkeyedType))
  /\ forall extract,
       EvaluationResult.overallScore
         (evaluateDocument extract notesDoc unkeyedType) = NaN
       /\ num_leb (Fin 0)
            (EvaluationResult.overallScore
               (evaluateDocument extract notesDoc unkeyedType)) = false.
Proof.
  split; [split; [reflexivity | simpl; lia]|].
  intros extract. split; vm_compute; reflexivity.
Qed.

(** ** The second extractor *)




Lemma str_exists_str_filter cls keep s :
  str_exists cls s = false -> str_exists cls (str_filter keep s) = false.
Proof.
  induction s as [|c s IH]; simpl; [reflexivity|].
  intros H. apply orb_false_iff in H. destruct H as [Hc Hs].
  destruct (keep c); simpl; [rewrite Hc|]; auto.
Qed.



Lemma extract_urls_tokens_are_words : tokens_are_words extract_urls.
Proof.
  intros text token H. apply uniq_In, List.filter_In in H. destruct H as [H _].
  apply in_map_iff in H. destruct H as [word [<- Hword]].
  apply words_no_space in Hword. unfold normalizeToken, toLowerCase.
  rewrite (str_exists_str_map _ _ _ isWhiteSpace_toLowerChar).
  destruct (isUrl word); [assumption|].
  now apply str_exists_str_filter.
Qed.

(** ** The rubric of the program, the formula and the letter case *)

Lemma rubric_full_marks_witness :
  DocumentType.overallMinWordCount projectOverviewType
  <= length (words rubricDoc)
  /\ forallb (metUpToSpaced extract_model rubricDoc)
       (DocumentType.sections projectOverviewType) = true
  /\ num_eq
       (EvaluationResult.overallScore
          (evaluateDocument extract_model rubricDoc projectOverviewType))
       (Fin 100).
Proof.
  assert (Hw : DocumentType.overallMinWordCount projectOverviewType
               <= length (words rubricDoc))
    by (apply Nat.leb_le; vm_compute; reflexivity).
  assert (Hm : forallb (metUpToSpaced extract_model rubricDoc)
                 (DocumentType.sections projectOverviewType) = true)
    by (vm_compute; reflexivity).
  split; [exact Hw|]. split; [exact Hm|].
  exact (proj2 (rubric_full_marks extract_model rubricDoc Hw) Hm).
Defined.

(** The same document in binary64: six sections score 1, the Conclusion
    scores 0.8333333333333334, and the overall score is 100. *)
Example rubricDoc_in_binary64 :
  Binary64.overallScore
    (repeat (Binary64.sectionScore true 0 3) 6
     ++ [Binary64.sectionScore true 1 3])%list
    true
  = Binary64.of_Z 100.
Proof. vm_compute. reflexivity. Qed.

(** Seven sections that score 1 in binary64. *)
Example fully_met_in_binary64 :
  Binary64.overallScore (repeat (Binary64.sectionScore true 0 3) 7) true
  = Binary64.of_Z 100.
Proof. vm_compute. reflexivity. Qed.

Example one_tenth_in_binary64 :
  Binary64.div (Binary64.of_Z 1) (Binary64.of_Z 10) = Binary64.tenth.
Proof. vm_compute. reflexivity. Qed.

Lemma section_score_as_computed_witness :
  plain_name (name conclusion) = true
  /\ regex_match (sectionRegex conclusion) rubricDoc = Some (3274, 16)
  /\ regex_match (sectionRegex conclusion) strayDoc = None
  /\ 0 < length (requiredKeywords conclusion)
  /\ num_eq (score (evaluateSection extract_model rubricDoc conclusion))
       (sectionScoreAsComputed
          (length (words (sectionText rubricDoc (3274, 16))))
          (extractKeywords extract_model (sectionText rubricDoc (3274, 16)))
          conclusion)
  /\ score (evaluateSection extract_model strayDoc conclusion) = Fin 0
  /\ num_leb (Fin 0) (score (evaluateSection extract_model rubricDoc conclusion))
     = true
  /\ num_leb (score (evaluateSection extract_model rubricDoc conclusion)) (Fin 1)
     = true.
Proof.
  assert (Hm : regex_match (sectionRegex conclusion) rubricDoc
               = Some (3274, 16))
    by (vm_compute; reflexivity).
  assert (Ha : regex_match (sectionRegex conclusion) strayDoc = None)
    by (vm_compute; reflexivity).
  assert (Hn : 0 < length (requiredKeywords conclusion)) by (simpl; lia).
  split; [reflexivity|]. split; [exact Hm|]. split; [exact Ha|].
  split; [exact Hn|].
  split;
    [exact (proj1 (section_score_as_computed extract_model rubricDoc conclusion
                     eq_refl) (3274, 16) Hm)|].
  split;
    [exact (proj1 (proj2 (section_score_as_computed extract_model strayDoc
                            conclusion eq_refl)) Ha)|].
  exact (proj2 (proj2 (section_score_as_computed extract_model rubricDoc
                         conclusion eq_refl)) Hn).
Defined.

(** The formula of the specification, [0.5 * (found / required)], is not
    the number that the code computes, [(1 - missing / required) * 0.5]:
    for the Conclusion section of the rubric with two of its three keywords
    found, as in [rubricDoc], the code returns 0.8333333333333334 and the
    formula gives 0.8333333333333333.  And a section without required
    keywords that is present scores NaN, which is outside [0, 1]. *)
Lemma section_score_counterexample :
  (In conclusion (DocumentType.sections projectOverviewType)
   /\ regex_match (sectionRegex conclusion) rubricDoc = Some (3274, 16)
   /\ (minWordCount conclusion
       <=? length (words (sectionText rubricDoc (3274, 16)))) = true
   /\ missingKeywords (evaluateSection extract_model rubricDoc conclusion)
      = ["next steps"]
   /\ foundCount
        (extractKeywords extract_model (sectionText rubricDoc (3274, 16)))
        conclusion = 2
   /\ Binary64.sectionScore true 1 3
      = S754_finite false 7505999378950827 (-53)
   /\ Binary64.sectionFormula true 2 3
      = S754_finite false 7505999378950826 (-53)
   /\ SFeqb (Binary64.sectionScore true 1 3) (Binary64.sectionFormula true 2 3)
      = false)
  /\ (plain_name (name unkeyed) = true
      /\ regex_match (sectionRegex unkeyed) notesDoc = Some (0, 11)
      /\ forall extract,
           score (evaluateSection extract notesDoc unkeyed) = NaN
           /\ num_leb (Fin 0) (score (evaluateSection extract notesDoc unkeyed))
              = false
           /\ num_leb (score (evaluateSection extract notesDoc unkeyed)) (Fin 1)
              = false).
Proof.
  split.
  - split; [simpl; tauto|]. repeat split; vm_compute; reflexivity.
  - split; [reflexivity|]. split; [vm_compute; reflexivity|].
    intros extract. repeat split; vm_compute; reflexivity.
Qed.

(** For a section with three required keywords, as every section of the
    rubric has: the binary64 score of the code and the binary64 value of the
    formula of the specification, for each word-count outcome and each number
    of missing keywords.  They differ whenever one or two keywords are
    missing. *)
Example three_keywords_in_binary64 :
  map
    (fun '(met, missing) =>
       SFeqb (Binary64.sectionScore met missing 3)
         (Binary64.sectionFormula met (3 - missing) 3))
    [(true, 0); (true, 1); (true, 2); (true, 3);
     (false, 0); (false, 1); (false, 2); (false, 3)]%Z
  = [true; false; false; true; true; false; false; true].
Proof. vm_compute. reflexivity. Qed.



(** * Further properties of the code *)

(** ** What the patterns match *)

Lemma str_append_cons c (a b : string) : String c a +:+ b = String c (a +:+ b).
Proof. reflexivity. Qed.

Lemma str_append_nil (b : string) : EmptyString +:+ b = b.
Proof. reflexivity. Qed.

Ltac str_simpl := simpl; rewrite ?str_append_cons, ?str_append_nil; simpl.

Lemma slice_to_from s n : slice_to n s +:+ slice_from n s = s.
Proof.
  revert s; induction n as [|n IH]; intros [|c s]; str_simpl; try reflexivity.
  f_equal. apply IH.
Qed.

Lemma slice_from_append w rest : slice_from (String.length w) (w +:+ rest) = rest.
Proof. induction w as [|c w IH]; str_simpl; auto. Qed.

Lemma slice_to_add a b s :
  slice_to (a + b) s = slice_to a s +:+ slice_to b (slice_from a s).
Proof.
  revert s; induction a as [|a IH]; intros s; str_simpl; [reflexivity|].
  destruct s as [|c s]; str_simpl; [destruct b; reflexivity|].
  now rewrite IH.
Qed.

Lemma slice_from_all_of s n : String.length s <= n -> slice_from n s = EmptyString.
Proof.
  revert s; induction n as [|n IH]; intros [|c s]; simpl; intros H;
    try reflexivity; try lia.
  apply IH. lia.
Qed.

Lemma slice_to_length n s :
  String.length (slice_to n s) = Nat.min n (String.length s).
Proof.
  revert s; induction n as [|n IH]; intros [|c s]; simpl; auto.
Qed.

Lemma slice_to_slice_to n m s : n <= m -> slice_to n (slice_to m s) = slice_to n s.
Proof.
  revert m s; induction n as [|n IH]; intros m s H; [destruct m, s; reflexivity|].
  destruct m as [|m]; [lia|]. destruct s as [|c s]; simpl; [reflexivity|].
  rewrite IH; [reflexivity | lia].
Qed.

Lemma slice_from_slice_to a b s :
  slice_from a (slice_to (a + b) s) = slice_to b (slice_from a s).
Proof.
  revert s; induction a as [|a IH]; intros s; simpl; [reflexivity|].
  destruct s as [|c s]; simpl; [destruct b; reflexivity | apply IH].
Qed.

Lemma str_append_assoc (a b c : string) : (a +:+ b) +:+ c = a +:+ (b +:+ c).
Proof. induction a as [|x a IH]; str_simpl; [reflexivity | now rewrite IH]. Qed.

Lemma str_append_empty_r (a : string) : a +:+ EmptyString = a.
Proof. induction a as [|x a IH]; str_simpl; [reflexivity | now rewrite IH]. Qed.

Lemma match_plus_sound cls p k s n :
  (forall t m, k t = Some m -> lang p (slice_to m t)) ->
  match_plus cls k s = Some n -> lang (OneOrMore cls :: p) (slice_to n s).
Proof.
  intros Hk; revert n; induction s as [|c s IH]; simpl; intros n; [discriminate|].
  destruct (cls c) eqn:Hc; [|discriminate].
  destruct (match_plus cls k s) as [m|].
  - intros [= <-]. simpl. apply lang_more; [assumption | now apply IH].
  - destruct (k s) as [m|] eqn:E; simpl; [|discriminate].
    intros [= <-]. simpl. apply lang_last; [assumption | now apply Hk].
Qed.

(** The matcher only accepts strings of the pattern ... *)
Lemma match_here_sound p s n :
  match_here p s = Some n -> lang p (slice_to n s).
Proof.
  revert s n; induction p as [|[cls|cls] p IH]; intros s n; simpl.
  - intros [= <-]. destruct s; constructor.
  - destruct s as [|c s]; [discriminate|].
    destruct (cls c) eqn:Hc; [|discriminate].
    destruct (match_here p s) as [m|] eqn:E; simpl; [|discriminate].
    intros [= <-]. simpl. apply lang_one; [assumption | now apply IH].
  - apply match_plus_sound. exact IH.
Qed.

(** ... and finds a match whenever the text starts with one. *)
Lemma match_here_complete p w :
  lang p w -> forall rest, match_here p (w +:+ rest) <> None.
Proof.
  induction 1 as [|cls p c w Hc _ IH|cls p c w Hc _ IH|cls p c w Hc _ IH];
    intros rest; str_simpl.
  - discriminate.
  - rewrite Hc. specialize (IH rest).
    destruct (match_here p (w +:+ rest)); [discriminate | contradiction].
  - rewrite Hc. specialize (IH rest). simpl in IH.
    destruct (match_plus cls (match_here p) (w +:+ rest));
      [discriminate | contradiction].
  - rewrite Hc. specialize (IH rest).
    destruct (match_plus cls (match_here p) (w +:+ rest)); [discriminate|].
    destruct (match_here p (w +:+ rest)); [discriminate | contradiction].
Qed.

Lemma lang_one_inv cls p w :
  lang (One cls :: p) w ->
  exists c w', w = String c w' /\ cls c = true /\ lang p w'.
Proof. inversion 1; subst; eauto. Qed.

Lemma lang_plus_inv cls p w :
  lang (OneOrMore cls :: p) w ->
  exists run rest,
    w = run +:+ rest /\ run <> EmptyString /\ str_forall cls run = true
    /\ lang p rest.
Proof.
  remember (OneOrMore cls :: p) as q eqn:Hq. intros H.
  induction H as [|cls' p' c w Hc H IH|cls' p' c w Hc H IH|cls' p' c w Hc H IH];
    try discriminate; injection Hq as -> ->.
  - destruct (IH eq_refl) as [run [rest [-> [_ [Hrun Hrest]]]]].
    exists (String c run), rest. str_simpl. rewrite Hc, Hrun.
    repeat split; [discriminate | assumption].
  - exists (String c EmptyString), w. str_simpl. rewrite Hc.
    repeat split; [discriminate | assumption].
Qed.

Lemma lang_plus_intro cls p run rest :
  run <> EmptyString -> str_forall cls run = true -> lang p rest ->
  lang (OneOrMore cls :: p) (run +:+ rest).
Proof.
  intros Hne Hall Hrest. induction run as [|c run IH]; [contradiction|].
  simpl in Hall. apply andb_true_iff in Hall. destruct Hall as [Hc Hall].
  destruct run as [|c' run'].
  - str_simpl. now apply lang_last.
  - rewrite str_append_cons.
    apply lang_more; [assumption|]. apply IH; [discriminate | assumption].
Qed.

Lemma lit_hash b c : lit b "#" c = true -> c = "#"%char.
Proof.
  destruct b; destruct c as [[] [] [] [] [] [] [] []]; vm_compute;
    intros H; first [reflexivity | discriminate H].
Qed.

Lemma lit_space b c : lit b " " c = true -> c = " "%char.
Proof.
  destruct b; destruct c as [[] [] [] [] [] [] [] []]; vm_compute;
    intros H; first [reflexivity | discriminate H].
Qed.

Lemma lit_dot b c : lit b "." c = true -> c = "."%char.
Proof.
  destruct b; destruct c as [[] [] [] [] [] [] [] []]; vm_compute;
    intros H; first [reflexivity | discriminate H].
Qed.

Lemma lit_same_letter x c :
  lit true c x = true <-> toLowerChar x = toLowerChar c.
Proof.
  unfold lit. rewrite Ascii.eqb_eq. split; intros H.
  - rewrite <- (toLowerChar_canonicalize x), H. apply toLowerChar_canonicalize.
  - rewrite <- (canonicalize_toLowerChar x), H. apply canonicalize_toLowerChar.
Qed.

Lemma lang_name name w :
  lang (map (fun c => One (lit true c)) (list_ascii_of_string name)) w
  <-> toLowerCase w = toLowerCase name.
Proof.
  revert w; induction name as [|c name IH]; intros w; simpl.
  - split.
    + inversion 1. reflexivity.
    + destruct w; [constructor | discriminate].
  - split.
    + intros H. apply lang_one_inv in H.
      destruct H as [x [w' [-> [Hx Hw]]]].
      apply lit_same_letter in Hx. apply IH in Hw.
      unfold toLowerCase in *. simpl. now rewrite Hx, Hw.
    + destruct w as [|x w]; [discriminate|].
      unfold toLowerCase. simpl. intros [= Hx Hw].
      apply lang_one; [now apply lit_same_letter | now apply IH].
Qed.

(** The strings of [## \d+\.\s+] followed by a pattern [p]. *)
Lemma lang_headerPrefix b p w :
  lang (headerPrefix b ++ p)%list w <->
  exists digits spaces rest,
    w = "## " +:+ digits +:+ "." +:+ spaces +:+ rest
    /\ digits <> EmptyString /\ str_forall isDigit digits = true
    /\ spaces <> EmptyString /\ str_forall isWhiteSpace spaces = true
    /\ lang p rest.
Proof.
  unfold headerPrefix. simpl. split.
  - intros H.
    apply lang_one_inv in H. destruct H as [c1 [w1 [-> [H1 H]]]].
    apply lang_one_inv in H. destruct H as [c2 [w2 [-> [H2 H]]]].
    apply lang_one_inv in H. destruct H as [c3 [w3 [-> [H3 H]]]].
    apply lang_plus_inv in H.
    destruct H as [digits [r1 [-> [Hd1 [Hd2 H]]]]].
    apply lang_one_inv in H. destruct H as [c4 [w4 [-> [H4 H]]]].
    apply lang_plus_inv in H.
    destruct H as [spaces [rest [-> [Hs1 [Hs2 H]]]]].
    apply lit_hash in H1, H2. apply lit_space in H3. apply lit_dot in H4.
    subst. exists digits, spaces, rest. repeat split; assumption.
  - intros [digits [spaces [rest [-> [Hd1 [Hd2 [Hs1 [Hs2 H]]]]]]]].
    rewrite !str_append_cons, ?str_append_nil.
    apply lang_one; [destruct b; reflexivity|].
    apply lang_one; [destruct b; reflexivity|].
    apply lang_one; [destruct b; reflexivity|].
    apply lang_plus_intro; [assumption | assumption|].
    apply lang_one; [destruct b; reflexivity|].
    apply lang_plus_intro; assumption.
Qed.

Lemma lang_sectionRegex section w :
  lang (sectionRegex section) w <-> header_shape (name section) w.
Proof.
  unfold sectionRegex, header_shape. rewrite lang_headerPrefix. split.
  - intros [digits [spaces [title [-> [Hd1 [Hd2 [Hs1 [Hs2 H]]]]]]]].
    apply lang_name in H. exists digits, spaces, title. repeat split; assumption.
  - intros [digits [spaces [title [-> [Hd1 [Hd2 [Hs1 [Hs2 H]]]]]]]].
    apply lang_name in H. exists digits, spaces, title. repeat split; assumption.
Qed.

Lemma lang_nextSectionRegex w :
  lang nextSectionRegex w <-> prefix_shape w.
Proof.
  unfold nextSectionRegex, prefix_shape.
  rewrite <- (app_nil_r (headerPrefix false)), lang_headerPrefix. split.
  - intros [digits [spaces [rest [-> [Hd1 [Hd2 [Hs1 [Hs2 H]]]]]]]].
    inversion H; subst. rewrite str_append_empty_r.
    exists digits, spaces. repeat split; assumption.
  - intros [digits [spaces [-> [Hd1 [Hd2 [Hs1 Hs2]]]]]].
    exists digits, spaces, EmptyString. rewrite str_append_empty_r.
    repeat split; try assumption. constructor.
Qed.

(** A pattern matches somewhere in a text exactly when the text has a
    substring of the pattern. *)
Lemma regex_match_some_iff p content :
  regex_match p content <> None <->
  exists pre w post, content = pre +:+ w +:+ post /\ lang p w.
Proof.
  split.
  - intros H. destruct (regex_match p content) as [[i n]|] eqn:E;
      [|contradiction].
    apply regex_match_first in E. destruct E as [[Hi Hm] _].
    apply match_here_sound in Hm.
    exists (slice_to i content), (slice_to n (slice_from i content)),
      (slice_from n (slice_from i content)).
    split; [|assumption]. now rewrite !slice_to_from.
  - intros [pre [w [post [-> Hw]]]] H.
    apply (proj1 (regex_match_none _ _)) with (k := String.length pre) in H.
    rewrite slice_from_append in H.
    now apply (match_here_complete p w Hw post).
Qed.

(** The matcher reads no more of the text than it matches. *)
Lemma match_here_extend p s m :
  match_here p (slice_to m s) <> None -> match_here p s <> None.
Proof.
  intros H. destruct (match_here p (slice_to m s)) as [n|] eqn:E;
    [|contradiction].
  pose proof (match_here_le _ _ _ E) as Hn.
  rewrite slice_to_length in Hn.
  apply match_here_sound in E.
  rewrite <- (slice_to_from s n).
  apply match_here_complete.
  rewrite slice_to_slice_to in E; [assumption | lia].
Qed.

Lemma match_plus_truncate cls k s n m :
  (forall t j, match_plus cls k (slice_to j t) <> None ->
               match_plus cls k t <> None) ->
  (forall t i j, k t = Some i -> i <= j -> k (slice_to j t) = Some i) ->
  match_plus cls k s = Some n -> n <= m ->
  match_plus cls k (slice_to m s) = Some n.
Proof.
  intros Hext Hk; revert n m; induction s as [|c s IH]; intros n m; simpl;
    [discriminate|].
  destruct (cls c) eqn:Hc; [|discriminate].
  destruct (match_plus cls k s) as [n1|] eqn:E1.
  - intros [= <-] Hm. destruct m as [|m]; [lia|]. simpl. rewrite Hc.
    rewrite (IH n1 m eq_refl); [reflexivity | lia].
  - destruct (k s) as [n1|] eqn:E2; simpl; [|discriminate].
    intros [= <-] Hm. destruct m as [|m]; [lia|]. simpl. rewrite Hc.
    destruct (match_plus cls k (slice_to m s)) as [n2|] eqn:E3.
    + exfalso. apply (Hext s m); [rewrite E3; discriminate | assumption].
    + rewrite (Hk s n1 m E2); [reflexivity | lia].
Qed.

Lemma match_here_truncate p s n m :
  match_here p s = Some n -> n <= m -> match_here p (slice_to m s) = Some n.
Proof.
  revert s n m; induction p as [|[cls|cls] p IH]; intros s n m; simpl.
  - intros [= <-] _. reflexivity.
  - destruct s as [|c s]; [discriminate|].
    destruct (cls c) eqn:Hc; [|discriminate].
    destruct (match_here p s) as [n1|] eqn:E; simpl; [|discriminate].
    intros [= <-] Hm. destruct m as [|m]; [lia|]. simpl. rewrite Hc.
    rewrite (IH s n1 m E); [reflexivity | lia].
  - apply match_plus_truncate.
    + intros t j. apply (match_here_extend (OneOrMore cls :: p) t j).
    + exact IH.
Qed.

Lemma regex_match_at_head p s n :
  match_here p s = Some n -> regex_match p s = Some (0, n).
Proof. intros H. destruct s; simpl; now rewrite H. Qed.

Lemma nextSectionRegex_not_empty : match_here nextSectionRegex EmptyString = None.
Proof. reflexivity. Qed.

(** ** Counting words *)

Lemma nonEmpty_append_unit piece c :
  nonEmpty (piece +:+ String c EmptyString) = true.
Proof. destruct piece; reflexivity. Qed.

Lemma split_ws_countWords s :
  length (List.filter nonEmpty (split_ws EmptyString true s))
  = countWords false s
  /\ forall piece,
       length (List.filter nonEmpty (split_ws piece false s))
       = countWords (nonEmpty piece) s.
Proof.
  induction s as [|c s [IHa IHb]]; split; try intros piece; simpl.
  - reflexivity.
  - destruct (nonEmpty piece); reflexivity.
  - destruct (isWhiteSpace c); [exact IHa|].
    rewrite IHb. now rewrite nonEmpty_append_unit.
  - destruct (isWhiteSpace c).
    + simpl. rewrite <- IHa. destruct (nonEmpty piece); reflexivity.
    + rewrite IHb. now rewrite nonEmpty_append_unit.
Qed.

Lemma words_countWords s : length (words s) = countWords false s.
Proof. unfold words. apply (proj2 (split_ws_countWords s) EmptyString). Qed.

Lemma countWords_in_word s : 1 <= countWords true s.
Proof.
  induction s as [|c s IH]; simpl; [lia|].
  destruct (isWhiteSpace c); lia.
Qed.

Lemma countWords_flag s : countWords false s <= countWords true s.
Proof.
  destruct s as [|c s]; simpl; [lia|]. destruct (isWhiteSpace c); lia.
Qed.

Lemma countWords_slice_from n s b :
  countWords false (slice_from n s) <= countWords b s.
Proof.
  revert s b; induction n as [|n IH]; intros s b; simpl.
  - destruct b; [apply countWords_flag | lia].
  - destruct s as [|c s]; simpl; [destruct b; lia|].
    destruct (isWhiteSpace c).
    + specialize (IH s false). lia.
    + apply IH.
Qed.

Lemma countWords_slice_to n s b :
  countWords b (slice_to n s) <= countWords b s.
Proof.
  revert s b; induction n as [|n IH]; intros s b.
  - replace (slice_to 0 s) with EmptyString by (destruct s; reflexivity).
    simpl. destruct b; [apply countWords_in_word | lia].
  - destruct s as [|c s]; simpl; [lia|].
    destruct (isWhiteSpace c).
    + specialize (IH s false). lia.
    + apply IH.
Qed.

Lemma digit_not_space c : isDigit c = true -> isWhiteSpace c = false.
Proof.
  destruct c as [[] [] [] [] [] [] [] []]; vm_compute; intros H;
    first [reflexivity | discriminate H].
Qed.

(** A text that starts with a header has at least the two words [##] and
    [<number>.]. *)
Lemma countWords_header name w rest :
  header_shape name w -> 2 <= countWords false (w +:+ rest).
Proof.
  intros [digits [spaces [title [-> [Hd1 [Hd2 _]]]]]].
  destruct digits as [|d digits]; [contradiction|].
  simpl in Hd2. apply andb_true_iff in Hd2. destruct Hd2 as [Hd _].
  rewrite !str_append_cons, ?str_append_nil. simpl.
  rewrite (digit_not_space d Hd).
  pose proof (countWords_in_word
                ((digits +:+ String "." (spaces +:+ title)) +:+ rest)).
  lia.
Qed.

(** ** More on [evaluateSection] *)

Lemma header_of_match section content i len :
  regex_match (sectionRegex section) content = Some (i, len) ->
  header_shape (name section) (slice_to len (slice_from i content)).
Proof.
  intros E. apply regex_match_first in E. destruct E as [[_ Hm] _].
  apply lang_sectionRegex. now apply match_here_sound.
Qed.

(** The section text starts with the header that was matched. *)
Lemma sectionText_starts_with_header content i len :
  exists rest,
    sectionText content (i, len)
    = slice_to len (slice_from i content) +:+ rest.
Proof.
  unfold sectionText.
  destruct (regex_match nextSectionRegex
              (slice_from len (slice_from i content))) as [[j l]|].
  - exists (slice_to j (slice_from len (slice_from i content))).
    rewrite (Nat.add_comm j len). apply slice_to_add.
  - exists (slice_from len (slice_from i content)).
    symmetry. apply slice_to_from.
Qed.

Lemma sectionText_wordCount_le content sectionMatch :
  length (words (sectionText content sectionMatch)) <= length (words content).
Proof.
  destruct sectionMatch as [i len]. rewrite !words_countWords.
  unfold sectionText.
  destruct (regex_match nextSectionRegex
              (slice_from len (slice_from i content))) as [[j l]|].
  - etransitivity; [apply countWords_slice_to|].
    apply countWords_slice_from.
  - apply countWords_slice_from.
Qed.

Lemma sublist_missing (test : string -> bool) (required : list string) :
  sublist (List.filter test required) required.
Proof.
  induction required as [|k ks IH]; simpl; [constructor|].
  destruct (test k); [now apply sublist_skip | now apply sublist_cons].
Qed.

Section Sections.

Variable extract : string -> ExtractOptions -> list string.

Lemma present_feedback_not_missing text section :
  feedback (scoreSectionText extract text section) <> missingFeedback section.
Proof.
  unfold scoreSectionText, missingFeedback. cbn [feedback].
  destruct (minWordCount section <=? length (words text));
    destruct (missingIn (extractKeywords extract text) section);
    rewrite !str_append_cons; discriminate.
Qed.

Lemma all_found_of_nothing_missing keywordsFound section :
  missingIn keywordsFound section = [] ->
  forallb
    (fun keyword => includes keywordsFound (toLowerCase keyword))
    (requiredKeywords section) = true.
Proof.
  unfold missingIn.
  induction (requiredKeywords section) as [|k ks IH]; simpl; [reflexivity|].
  destruct (includes keywordsFound (toLowerCase k)); simpl;
    [exact IH | discriminate].
Qed.

(** With a required keyword, the word-count half decides on which side of
    0.5 the score of a section text lies. *)
Lemma scoreSectionText_half text section :
  0 < length (requiredKeywords section) ->
  (minWordCount section <= length (words text) ->
   num_leb half (score (scoreSectionText extract text section)) = true)
  /\ (length (words text) < minWordCount section ->
      num_leb (score (scoreSectionText extract text section)) half = true).
Proof.
  intros H. rewrite (scoreSectionText_value extract text section H).
  pose proof (ratio_bounds _ _
                (missing_le (extractKeywords extract text) section) H)
    as Hr.
  split; intros Hw; simpl; apply Qle_bool_iff.
  - apply Nat.leb_le in Hw. rewrite Hw. lra.
  - apply Nat.leb_gt in Hw. rewrite Hw. lra.
Qed.

(** X1.  [evaluateSection] reports a section as missing exactly when the
    document has no substring made of [## ], one or more digits, a dot, one
    or more white-space code units and the name of the section in any letter
    case; what follows the name in the heading is not looked at.
    The names of the sections are literal patterns. *)
Theorem section_missing_iff_no_header content section :
  plain_name (name section) = true ->
  feedback (evaluateSection extract content section) = missingFeedback section
  <-> ~ (exists pre w post,
           content = pre +:+ w +:+ post /\ header_shape (name section) w).
Proof.
  intros _. unfold evaluateSection.
  pose proof (regex_match_some_iff (sectionRegex section) content) as Hiff.
  destruct (regex_match (sectionRegex section) content) as [m|]; split.
  - intros H. exfalso. now apply (present_feedback_not_missing _ section) in H.
  - intros H. exfalso. apply H.
    destruct (proj1 Hiff) as [pre [w [post [Hc Hw]]]]; [discriminate|].
    exists pre, w, post. split; [assumption | now apply lang_sectionRegex].
  - intros _ [pre [w [post [Hc Hw]]]]. apply (proj2 Hiff); [|reflexivity].
    exists pre, w, post. split; [assumption | now apply lang_sectionRegex].
  - intros _. reflexivity.
Qed.

(** X2.  Evaluating a section on its own section text gives the result that
    it has in the whole document: the text before the header and the text
    from the next header on have no influence.
    The names of the sections are literal patterns. *)
Theorem section_text_evaluates_alike content section sectionMatch :
  plain_name (name section) = true ->
  regex_match (sectionRegex section) content = Some sectionMatch ->
  evaluateSection extract (sectionText content sectionMatch) section
  = evaluateSection extract content section.
Proof.
  intros _ E. destruct sectionMatch as [i len].
  pose proof (regex_match_first _ _ _ _ E) as [[_ Hm] _].
  unfold evaluateSection at 2. rewrite E.
  set (sc := slice_from i content) in *.
  assert (Hself : forall t,
             match_here (sectionRegex section) t = Some len ->
             regex_match nextSectionRegex (slice_from len t) = None ->
             evaluateSection extract t section
             = scoreSectionText extract t section).
  { intros t Ht Hnone. unfold evaluateSection.
    rewrite (regex_match_at_head _ _ _ Ht). unfold sectionText. simpl.
    now rewrite Hnone. }
  unfold sectionText. fold sc.
  destruct (regex_match nextSectionRegex (slice_from len sc)) as [[j l]|] eqn:En.
  - apply Hself.
    + apply match_here_truncate; [assumption | lia].
    + rewrite (Nat.add_comm j len), slice_from_slice_to.
      apply regex_match_none. intros k.
      apply regex_match_first in En. destruct En as [_ Hfirst].
      destruct (Nat.lt_ge_cases k j) as [Hk|Hk].
      * specialize (Hfirst k Hk).
        replace j with (k + (j - k)) by lia. rewrite slice_from_slice_to.
        destruct (match_here nextSectionRegex
                    (slice_to (j - k) (slice_from k (slice_from len sc))))
          eqn:E'; [|reflexivity].
        exfalso.
        apply (match_here_extend nextSectionRegex
                 (slice_from k (slice_from len sc)) (j - k));
          [rewrite E'; discriminate | assumption].
      * rewrite slice_from_all_of; [reflexivity|].
        rewrite slice_to_length. lia.
  - now apply Hself.
Qed.

(** X3.  The keywords that [evaluateSection] reports as missing are a
    subsequence of the required keywords of the section: each of them is
    required, they keep the order of the rubric, and no keyword is reported
    more often than it is required.
    The names of the sections are literal patterns. *)
Theorem missing_keywords_are_required content section :
  plain_name (name section) = true ->
  sublist (missingKeywords (evaluateSection extract content section))
    (requiredKeywords section).
Proof.
  intros _. unfold evaluateSection.
  destruct (regex_match (sectionRegex section) content) as [m|].
  - apply sublist_missing.
  - reflexivity.
Qed.

(** X4.  A section with at least one required keyword scores 1 only if, and
    whenever, it is present with at least its minimum word count and none of
    its required keywords missing.
    The names of the sections are literal patterns. *)
Theorem full_section_score_iff content section :
  plain_name (name section) = true ->
  0 < length (requiredKeywords section) ->
  num_eq (score (evaluateSection extract content section)) (Fin 1)
  <-> fullyMet extract content section = true.
Proof.
  intros _ Hn. split.
  - unfold evaluateSection, fullyMet.
    destruct (regex_match (sectionRegex section) content) as [m|];
      [|simpl; intros H; lra].
    set (text := sectionText content m).
    rewrite (scoreSectionText_value extract text section Hn).
    pose proof (ratio_bounds _ _
                  (missing_le (extractKeywords extract text) section) Hn)
      as Hr.
    pose proof (num_of_nat_pos _ Hn) as Hpos.
    simpl. intros H.
    destruct (minWordCount section <=? length (words text)); [|lra].
    simpl. apply all_found_of_nothing_missing.
    assert (Hz : (inject_Z (Z.of_nat (length
                    (missingIn (extractKeywords extract text) section)))
                  == 0)%Q).
    { assert (Hq : (inject_Z (Z.of_nat (length
                      (missingIn (extractKeywords extract text) section)))
                    / inject_Z (Z.of_nat (length (requiredKeywords section)))
                    == 0)%Q) by lra.
      rewrite <- (Qmult_div_r
                    (inject_Z (Z.of_nat (length
                       (missingIn (extractKeywords extract text) section))))
                    (inject_Z (Z.of_nat (length (requiredKeywords section)))));
        [|lra].
      rewrite Hq. ring. }
    change 0%Q with (inject_Z 0) in Hz. apply inject_Z_injective in Hz.
    destruct (missingIn (extractKeywords extract text) section);
      [reflexivity | discriminate].
  - intros H. apply between_one. now apply fullyMet_scores_one.
Qed.

(** X5.  The header of a section counts as words of the section: a section
    that is present always has at least two words, [##] and [<number>.], so a
    section with a required keyword and a minimum word count of at most 2
    gets the word-count half as soon as its header is found.
    The names of the sections are literal patterns. *)
Theorem header_counts_as_words content section sectionMatch :
  plain_name (name section) = true ->
  regex_match (sectionRegex section) content = Some sectionMatch ->
  2 <= length (words (sectionText content sectionMatch))
  /\ (0 < length (requiredKeywords section) ->
      minWordCount section <= 2 ->
      num_leb half (score (evaluateSection extract content section)) = true).
Proof.
  intros _ E. destruct sectionMatch as [i len].
  assert (Hw : 2 <= length (words (sectionText content (i, len)))).
  { rewrite words_countWords.
    destruct (sectionText_starts_with_header content i len) as [rest ->].
    apply (countWords_header (name section)).
    now apply header_of_match. }
  split; [exact Hw|].
  intros Hn Hmin. unfold evaluateSection. rewrite E.
  apply (proj1 (scoreSectionText_half _ section Hn)). lia.
Qed.

(** X6.  The text of a section is part of the document, so it never has more
    words than the document: when the document has fewer words than the
    minimum of a section with a required keyword, that section scores at
    most 0.5.
    The names of the sections are literal patterns. *)
Theorem short_document_caps_section content section documentType :
  plain_name (name section) = true ->
  0 < length (requiredKeywords section) ->
  EvaluationResult.wordCount (evaluateDocument extract content documentType)
  < minWordCount section ->
  (forall sectionMatch,
     length (words (sectionText content sectionMatch))
     <= EvaluationResult.wordCount
          (evaluateDocument extract content documentType))
  /\ num_leb (score (evaluateSection extract content section)) half = true.
Proof.
  intros _ Hn Hshort. cbn [evaluateDocument EvaluationResult.wordCount] in *.
  split; [intros m; apply sectionText_wordCount_le|].
  unfold evaluateSection.
  destruct (regex_match (sectionRegex section) content) as [m|];
    [|reflexivity].
  apply (proj2 (scoreSectionText_half _ section Hn)).
  pose proof (sectionText_wordCount_le content m). lia.
Qed.

Lemma map_filter_test {A B : Type} (f : A -> B) (test : B -> bool)
    (xs : list A) :
  map f (List.filter (fun x => test (f x)) xs) = List.filter test (map f xs).
Proof.
  induction xs as [|x xs IH]; simpl; [reflexivity|].
  destruct (test (f x)); simpl; now rewrite IH.
Qed.

(** The missing keywords in lower case are the lower-case keywords of the
    section that are not among the tokens. *)
Lemma missingIn_lower keywordsFound section :
  map toLowerCase (missingIn keywordsFound section)
  = List.filter (fun keyword => negb (includes keywordsFound keyword))
      (map toLowerCase (requiredKeywords section)).
Proof.
  unfold missingIn.
  apply (map_filter_test toLowerCase
           (fun keyword => negb (includes keywordsFound keyword))).
Qed.

(** X12.  The letter case of the required keywords of the rubric is
    irrelevant: two section definitions with the same name and minimum word
    count whose keywords differ only in letter case get the same score on
    every document, and the same missing keywords up to letter case.
    The names of the sections are literal patterns. *)
Theorem keyword_case_is_irrelevant content section section' :
  plain_name (name section) = true ->
  name section' = name section ->
  minWordCount section' = minWordCount section ->
  map toLowerCase (requiredKeywords section')
  = map toLowerCase (requiredKeywords section) ->
  score (evaluateSection extract content section')
  = score (evaluateSection extract content section)
  /\ map toLowerCase (missingKeywords (evaluateSection extract content section'))
     = map toLowerCase
         (missingKeywords (evaluateSection extract content section)).
Proof.
  intros _ Hname Hmin Hkeys.
  assert (Hre : sectionRegex section' = sectionRegex section)
    by (unfold sectionRegex; now rewrite Hname).
  unfold evaluateSection. rewrite Hre.
  destruct (regex_match (sectionRegex section) content) as [m|];
    [|split; [reflexivity | exact Hkeys]].
  unfold scoreSectionText. cbn [score missingKeywords].
  set (keywordsFound := extractKeywords extract (sectionText content m)).
  assert (Hmissing : map toLowerCase (missingIn keywordsFound section')
                     = map toLowerCase (missingIn keywordsFound section))
    by (now rewrite !missingIn_lower, Hkeys).
  split; [|exact Hmissing].
  pose proof (f_equal (@length string) Hmissing) as Hm.
  pose proof (f_equal (@length string) Hkeys) as Hk.
  rewrite !length_map in Hm, Hk.
  unfold keywordScore. now rewrite Hmin, Hm, Hk.
Qed.

End Sections.

Lemma find_app {A : Type} (test : A -> bool) (xs ys : list A) :
  find test (xs ++ ys)%list
  = match find test xs with
    | Some x => Some x
    | None => find test ys
    end.
Proof.
  induction xs as [|x xs IH]; simpl; [reflexivity|].
  destruct (test x); [reflexivity | exact IH].
Qed.

Lemma objectSet_lookup {V : Type} (key key' : string) (value : V)
    (object : gmap string V) :
  objectSet key value object !! key'
  = if String.eqb key key' && negb (String.eqb key' "__proto__")
    then Some value else object !! key'.
Proof.
  unfold objectSet.
  destruct (String.eqb key key') eqn:E.
  - apply String.eqb_eq in E. subst key'.
    destruct (String.eqb key "__proto__"); simpl;
      [reflexivity | apply lookup_insert_eq].
  - apply String.eqb_neq in E. simpl.
    destruct (String.eqb key "__proto__");
      [reflexivity | now apply lookup_insert_ne].
Qed.

Lemma lastSection_cons test section sections :
  lastSection test (section :: sections)
  = match lastSection test sections with
    | Some s => Some s
    | None => if test section then Some section else None
    end.
Proof. unfold lastSection. simpl. now rewrite find_app. Qed.

Section Documents.

Variable extract : string -> ExtractOptions -> list string.

Lemma tallyFeedback_fold content sections t :
  tallyFeedback (fold_left (tallySection extract content) sections t)
  = (tallyFeedback t
     ++ map (fun section =>
               name section +:+ ": "
               +:+ feedback (evaluateSection extract content section))
          sections)%list.
Proof.
  revert t; induction sections as [|s sections IH]; intros t; simpl.
  - now rewrite app_nil_r.
  - rewrite IH. cbn [tallySection tallyFeedback]. now rewrite <- app_assoc.
Qed.

Lemma tallyScores_fold content sections t (key : string) :
  tallyScores (fold_left (tallySection extract content) sections t) !! key
  = match (if String.eqb key "__proto__" then None
           else lastSection (fun section => String.eqb (name section) key)
                  sections)
    with
    | Some section => Some (score (evaluateSection extract content section))
    | None => tallyScores t !! key
    end.
Proof.
  revert t; induction sections as [|s sections IH]; intros t.
  - simpl. now destruct (String.eqb key "__proto__").
  - simpl fold_left. rewrite IH, lastSection_cons.
    destruct (String.eqb key "__proto__") eqn:Ep.
    + cbn [tallySection tallyScores]. rewrite objectSet_lookup, Ep.
      now rewrite andb_false_r.
    + destruct (lastSection _ sections); [reflexivity|].
      cbn [tallySection tallyScores]. rewrite objectSet_lookup, Ep.
      rewrite andb_true_r.
      now destruct (String.eqb (name s) key).
Qed.

Lemma tallyMissing_fold content sections t (key : string) :
  tallyMissing (fold_left (tallySection extract content) sections t) !! key
  = match (if String.eqb key "__proto__" then None
           else lastSection
                  (fun section =>
                     String.eqb (name section) key
                     && (0 <? length (missingKeywords
                                        (evaluateSection extract content
                                           section))))
                  sections)
    with
    | Some section =>
        Some (missingKeywords (evaluateSection extract content section))
    | None => tallyMissing t !! key
    end.
Proof.
  revert t; induction sections as [|s sections IH]; intros t.
  - simpl. now destruct (String.eqb key "__proto__").
  - simpl fold_left. rewrite IH, lastSection_cons.
    destruct (String.eqb key "__proto__") eqn:Ep.
    + cbn [tallySection tallyMissing].
      destruct (0 <? length (missingKeywords (evaluateSection extract content s)));
        [|reflexivity].
      rewrite objectSet_lookup, Ep. now rewrite andb_false_r.
    + destruct (lastSection _ sections); [reflexivity|].
      cbn [tallySection tallyMissing].
      destruct (0 <? length (missingKeywords (evaluateSection extract content s)));
        [|now rewrite andb_false_r].
      rewrite objectSet_lookup, Ep. rewrite !andb_true_r.
      now destruct (String.eqb (name s) key).
Qed.

(** X7.  A document in which no section of a rubric has a header gets an
    overall score of 0, or of 10 when its word count reaches the overall
    minimum: the bonus alone is worth ten points.  The rubric has at least
    one section.
    The names of the sections are literal patterns. *)
Theorem headerless_document_score content documentType :
  plain_rubric documentType = true ->
  0 < length (DocumentType.sections documentType) ->
  (forall section,
     In section (DocumentType.sections documentType) ->
     ~ (exists pre w post,
          content = pre +:+ w +:+ post /\ header_shape (name section) w)) ->
  num_eq
    (EvaluationResult.overallScore
       (evaluateDocument extract content documentType))
    (if DocumentType.overallMinWordCount documentType
        <=? length (words content)
     then Fin 10 else Fin 0).
Proof.
  intros _ Hn Hnone. rewrite overallScore_unfold.
  assert (Hav : between 0 0
            (num_div
               (tallyOverall
                  (fold_left (tallySection extract content)
                     (DocumentType.sections documentType) tally0))
               (num_of_nat (length (DocumentType.sections documentType))))).
  { apply average_between; [assumption|].
    apply List.Forall_forall. intros section Hin. unfold evaluateSection.
    destruct (regex_match (sectionRegex section) content) as [m|] eqn:E.
    - exfalso. apply (Hnone section Hin).
      destruct (proj1 (regex_match_some_iff (sectionRegex section) content))
        as [pre [w [post [Hc Hw]]]]; [rewrite E; discriminate|].
      exists pre, w, post. split; [assumption | now apply lang_sectionRegex].
    - simpl. lra. }
  destruct (num_div _ _) as [| | |q]; simpl in Hav; try contradiction.
  destruct (DocumentType.overallMinWordCount documentType
            <=? length (words content)); simpl.
  - destruct (Qle_bool (q + (1 # 10)) 1) eqn:E; simpl; [lra|].
    assert (~ (q + (1 # 10) <= 1)%Q)
      by (rewrite <- Qle_bool_iff, E; discriminate).
    lra.
  - destruct (Qle_bool q 1) eqn:E; simpl; [lra|].
    assert (~ (q <= 1)%Q) by (rewrite <- Qle_bool_iff, E; discriminate).
    lra.
Qed.

(** X9.  The feedback of [evaluateDocument] has one line for every section of
    the rubric, in the order of the rubric and whatever the order of the
    sections in the document, each made of the name of the section, a colon
    and the feedback of [evaluateSection]; one more line about the overall
    word count ends it.
    The names of the sections are literal patterns. *)
Theorem feedback_follows_rubric content documentType :
  plain_rubric documentType = true ->
  length (EvaluationResult.feedback
            (evaluateDocument extract content documentType))
  = S (length (DocumentType.sections documentType))
  /\ (forall i section,
        DocumentType.sections documentType !! i = Some section ->
        EvaluationResult.feedback
          (evaluateDocument extract content documentType) !! i
        = Some (name section +:+ ": "
                +:+ feedback (evaluateSection extract content section)))
  /\ exists line,
       EvaluationResult.feedback
         (evaluateDocument extract content documentType)
       !! length (DocumentType.sections documentType) = Some line
       /\ slice_to 18 line = "Overall word count".
Proof.
  intros _. cbn [evaluateDocument EvaluationResult.feedback].
  rewrite tallyFeedback_fold. cbn [tallyFeedback tally0 app].
  split; [|split].
  - rewrite length_app, length_map. simpl. lia.
  - intros i section Hi. rewrite lookup_app_l.
    + now rewrite list_lookup_fmap, Hi.
    + rewrite length_map. now apply lookup_lt_Some in Hi.
  - eexists. split.
    + rewrite lookup_app_r; rewrite length_map; [|lia].
      rewrite Nat.sub_diag. reflexivity.
    + destruct (DocumentType.overallMinWordCount documentType
                <=? length (words content)); reflexivity.
Qed.

(** X10.  [sectionScores] has an entry for a name exactly when the name is
    not [__proto__] and the rubric has a section of that name, and the entry
    is the score of the last section of the rubric with that name: a later
    section overwrites an earlier one of the same name, and an assignment to
    [__proto__] adds no property.
    The names of the sections are literal patterns. *)
Theorem sectionScores_lookup content documentType (key : string) :
  plain_rubric documentType = true ->
  EvaluationResult.sectionScores
    (evaluateDocument extract content documentType) !! key
  = if String.eqb key "__proto__" then None
    else option_map
           (fun section => score (evaluateSection extract content section))
           (lastSection (fun section => String.eqb (name section) key)
              (DocumentType.sections documentType)).
Proof.
  intros _. cbn [evaluateDocument EvaluationResult.sectionScores].
  rewrite tallyScores_fold.
  destruct (String.eqb key "__proto__"); [reflexivity|].
  destruct (lastSection _ (DocumentType.sections documentType)); reflexivity.
Qed.

(** X11.  [missingKeywords] never holds an empty list and has no entry for
    [__proto__]: the entry of any other name is the list of the last section
    of the rubric with that name that has a keyword missing, and a name
    without such a section has no entry.  (A later section of the same name
    with nothing missing leaves the entry of an earlier one in place.)
    The names of the sections are literal patterns. *)
Theorem missingKeywords_lookup content documentType (key : string) :
  plain_rubric documentType = true ->
  EvaluationResult.missingKeywords
    (evaluateDocument extract content documentType) !! key
  = (if String.eqb key "__proto__" then None
     else option_map
            (fun section =>
               missingKeywords (evaluateSection extract content section))
            (lastSection
               (fun section =>
                  String.eqb (name section) key
                  && (0 <? length (missingKeywords
                                     (evaluateSection extract content
                                        section))))
               (DocumentType.sections documentType)))
  /\ EvaluationResult.missingKeywords
       (evaluateDocument extract content documentType) !! key
     <> Some [].
Proof.
  intros _. cbn [evaluateDocument EvaluationResult.missingKeywords].
  rewrite tallyMissing_fold.
  destruct (String.eqb key "__proto__"); [split; [reflexivity | discriminate]|].
  destruct (lastSection _ (DocumentType.sections documentType)) as [s|] eqn:E.
  - split; [reflexivity|].
    unfold lastSection in E. apply find_some in E. destruct E as [_ E].
    apply andb_true_iff in E. destruct E as [_ E]. apply Nat.ltb_lt in E.
    intros [= H]. rewrite H in E. simpl in E. lia.
  - split; [reflexivity | discriminate].
Qed.

End Documents.

(** ** The runner *)

Lemma encodeUnit_isEncoded c : str_forall isEncoded (encodeUnit c) = true.
Proof. each_code_unit c. Qed.

Lemma decodeFirst_encodeUnit c rest :
  decodeFirst (encodeUnit c +:+ rest) = Some (c, rest).
Proof. destruct c as [[] [] [] [] [] [] [] []]; reflexivity. Qed.

Lemma str_forall_append cls (a b : string) :
  str_forall cls (a +:+ b) = str_forall cls a && str_forall cls b.
Proof.
  induction a as [|c a IH]; str_simpl; [reflexivity|].
  now rewrite IH, andb_assoc.
Qed.

Lemma str_append_cancel (a b c : string) : a +:+ b = a +:+ c -> b = c.
Proof.
  induction a as [|x a IH]; str_simpl; [auto|]. intros [= H]. auto.
Qed.

Lemma encodeURIComponent_injective s t :
  encodeURIComponent s = encodeURIComponent t -> s = t.
Proof.
  revert t; induction s as [|c s IH]; intros [|d t]; simpl; intros H.
  - reflexivity.
  - apply (f_equal decodeFirst) in H.
    rewrite decodeFirst_encodeUnit in H. discriminate.
  - apply (f_equal decodeFirst) in H.
    rewrite decodeFirst_encodeUnit in H. discriminate.
  - apply (f_equal decodeFirst) in H.
    rewrite !decodeFirst_encodeUnit in H. injection H as -> H.
    f_equal. now apply IH.
Qed.

(** X13.  In the URL of the Bitbucket request the path is one
    percent-encoded component: it is made of letters, digits,
    [- _ . ! ~ * ' ( )] and [%] only (so a slash, a question mark, a hash or
    a space of the path never reaches the URL as such), and two different
    paths of the same repository never give the same URL. *)
Theorem bitbucket_path_is_encoded owner repo path path' username token :
  str_forall isEncoded (encodeURIComponent path) = true
  /\ (url (bitbucketRequest owner repo path username token)
      = url (bitbucketRequest owner repo path' username token) ->
      path = path').
Proof.
  split.
  - induction path as [|c path IH]; simpl; [reflexivity|].
    now rewrite str_forall_append, encodeUnit_isEncoded, IH.
  - unfold bitbucketRequest. cbn [url]. intros H.
    rewrite <- !str_append_assoc in H.
    apply str_append_cancel in H. now apply encodeURIComponent_injective.
Qed.

Section Running.

Variable extract : string -> ExtractOptions -> list string.
Variable axios_get : Request -> Outcome string.
Variable fs_writeFileSync : string -> string -> option string.
Variable path_join : string -> string -> string.
Variable dirname : string.
Variable generateReport : EvaluationResult.t -> string.

Local Notation "'run'" :=
  (evaluateDocumentFromSource extract axios_get fs_writeFileSync path_join
     dirname generateReport).

Local Notation "'reportPath'" := (outputPath path_join dirname).

Ltac run_cases source username :=
  unfold evaluateDocumentFromSource, readFileFromGitHub, readFileFromBitbucket,
    axiosGet, writeFileSync;
  destruct (String.eqb source "github") eqn:?;
    [|destruct (String.eqb source "bitbucket") eqn:?;
      [destruct username as [?u|]; [destruct (falsy (Some u)) eqn:?|]|]];
  cbn [bind tryCatch emit ret throw app fst snd];
  try (match goal with
       | |- context [axios_get ?request] =>
           destruct (axios_get request) as [?content|?message] eqn:?;
           cbn [bind tryCatch emit ret throw app fst snd];
           try (match goal with
                | |- context [fs_writeFileSync ?path ?data] =>
                    destruct (fs_writeFileSync path data) eqn:?;
                    cbn [bind tryCatch emit ret throw app fst snd]
                end)
       end).

(** X14.  [evaluateDocumentFromSource] never throws, and a run is of one of
    three kinds: one error line and nothing else; one request and one error
    line; or one request that succeeded, the report of the fetched text
    against [projectOverviewType] written to the report file, and the two
    log lines.  So the report file is only written after a successful fetch,
    and a run ends with the two log lines or with one error line, never with
    both. *)
Theorem run_outcomes source owner repo filePath token username :
  snd (run source owner repo filePath token username) = Returned tt
  /\ ((exists message,
         fst (run source owner repo filePath token username)
         = [ConsoleError ("Error evaluating document: " +:+ message)])
      \/ (exists request message,
            fst (run source owner repo filePath token username)
            = [HttpGet request;
               ConsoleError ("Error evaluating document: " +:+ message)])
      \/ (exists request content,
            axios_get request = Returned content
            /\ fst (run source owner repo filePath token username)
               = [HttpGet request;
                  WriteFile reportPath
                    (generateReport
                       (evaluateDocument extract content projectOverviewType));
                  ConsoleLog ("Evaluation report generated: " +:+ reportPath);
                  ConsoleLog
                    (generateReport
                       (evaluateDocument extract content
                          projectOverviewType))])).
Proof.
  run_cases source username; (split; [reflexivity|]); eauto 8.
Qed.

(** X15.  A request is sent exactly when the source is ["github"], or is
    ["bitbucket"] with a user name that is neither absent nor empty: an
    unsupported source and a Bitbucket run without user name never reach the
    network. *)
Theorem request_sent_iff_configured source owner repo filePath token username :
  existsb isHttpGet (fst (run source owner repo filePath token username))
  = String.eqb source "github"
    || (String.eqb source "bitbucket" && negb (falsy username)).
Proof.
  run_cases source username; reflexivity.
Qed.

(** X16.  When the request fails, the message of the failure is printed once,
    behind the prefixes of the two handlers that it goes through, and
    nothing is written: "Error evaluating document: Error fetching file from
    GitHub: <message>", and the same with Bitbucket. *)
Theorem fetch_failure_is_reported owner repo filePath token message :
  (forall username,
     axios_get (githubRequest owner repo filePath token) = Thrown message ->
     run "github" owner repo filePath token username
     = ([HttpGet (githubRequest owner repo filePath token);
         ConsoleError
           ("Error evaluating document: Error fetching file from GitHub: "
            +:+ message)],
        Returned tt))
  /\ (forall user,
        nonEmpty user = true ->
        axios_get (bitbucketRequest owner repo filePath user token)
        = Thrown message ->
        run "bitbucket" owner repo filePath token (Some user)
        = ([HttpGet (bitbucketRequest owner repo filePath user token);
            ConsoleError
              ("Error evaluating document: Error fetching file from Bitbucket: "
               +:+ message)],
           Returned tt)).
Proof.
  split.
  - intros username H.
    unfold evaluateDocumentFromSource, readFileFromGitHub, axiosGet.
    cbn [String.eqb Ascii.eqb Bool.eqb]. rewrite H. reflexivity.
  - intros user Hu H.
    unfold evaluateDocumentFromSource, readFileFromBitbucket, axiosGet, falsy.
    cbn [String.eqb Ascii.eqb Bool.eqb]. rewrite Hu, H. reflexivity.
Qed.

End Running.

(** ** The further properties on sample documents *)

Lemma no_header_of_no_match section content :
  regex_match (sectionRegex section) content = None ->
  ~ (exists pre w post,
       content = pre +:+ w +:+ post /\ header_shape (name section) w).
Proof.
  intros E [pre [w [post [Hc Hw]]]].
  apply (proj2 (regex_match_some_iff (sectionRegex section) content));
    [|exact E].
  exists pre, w, post. split; [assumption | now apply lang_sectionRegex].
Qed.

Example long_title_is_accepted :
  feedback (evaluateSection extract_model longTitleDoc introOnly)
  = "Word count below minimum (6/7). Missing keywords: scope. ".
Proof. vm_compute. reflexivity. Qed.

(** With two sections of the same name, the score shown for the name is the
    one of the later section while the missing keywords are those of the
    earlier one. *)
Example stale_missing_entry :
  EvaluationResult.sectionScores
    (evaluateDocument extract_model scopeDoc repeatedType) !! "Intro"
  = Some (Fin (4 # 4))
  /\ EvaluationResult.missingKeywords
       (evaluateDocument extract_model scopeDoc repeatedType) !! "Intro"
     = Some ["purpose"].
Proof. split; vm_compute; reflexivity. Qed.

Example bitbucket_url_of_a_path :
  url (bitbucketRequest "o" "r" "docs/a b.md" "me" "t")
  = "https://api.bitbucket.org/2.0/repositories/o/r/src/master/docs%2Fa%20b.md".
Proof. vm_compute. reflexivity. Qed.

Lemma section_missing_iff_no_header_witness :
  plain_name (name introOnly) = true
  /\ (feedback (evaluateSection extract_model strayDoc introOnly)
      = missingFeedback introOnly
      <-> ~ (exists pre w post,
               strayDoc = pre +:+ w +:+ post
               /\ header_shape (name introOnly) w)).
Proof.
  split; [reflexivity|].
  apply (section_missing_iff_no_header extract_model strayDoc introOnly).
  reflexivity.
Defined.

Lemma section_text_evaluates_alike_witness :
  plain_name (name introOnly) = true
  /\ regex_match (sectionRegex introOnly) smallDoc = Some (0, 11)
  /\ evaluateSection extract_model (sectionText smallDoc (0, 11)) introOnly
     = evaluateSection extract_model smallDoc introOnly.
Proof.
  assert (E : regex_match (sectionRegex introOnly) smallDoc = Some (0, 11))
    by (vm_compute; reflexivity).
  split; [reflexivity|]. split; [exact E|].
  apply (section_text_evaluates_alike extract_model smallDoc introOnly (0, 11)
           eq_refl E).
Defined.

Lemma missing_keywords_are_required_witness :
  plain_name (name closing) = true
  /\ sublist (missingKeywords (evaluateSection extract_model smallDoc closing))
       (requiredKeywords closing).
Proof.
  split; [reflexivity|].
  apply (missing_keywords_are_required extract_model smallDoc closing).
  reflexivity.
Defined.

Lemma full_section_score_iff_witness :
  plain_name (name introOnly) = true
  /\ 0 < length (requiredKeywords introOnly)
  /\ (num_eq (score (evaluateSection extract_model smallDoc introOnly)) (Fin 1)
      <-> fullyMet extract_model smallDoc introOnly = true).
Proof.
  assert (Hn : 0 < length (requiredKeywords introOnly)) by (simpl; lia).
  split; [reflexivity|]. split; [exact Hn|].
  apply (full_section_score_iff extract_model smallDoc introOnly eq_refl Hn).
Defined.

Lemma header_counts_as_words_witness :
  plain_name (name introAgain) = true
  /\ regex_match (sectionRegex introAgain) longTitleDoc = Some (0, 13)
  /\ 0 < length (requiredKeywords introAgain)
  /\ minWordCount introAgain <= 2
  /\ 2 <= length (words (sectionText longTitleDoc (0, 13)))
  /\ num_leb half (score (evaluateSection extract_model longTitleDoc introAgain))
     = true.
Proof.
  assert (E : regex_match (sectionRegex introAgain) longTitleDoc = Some (0, 13))
    by (vm_compute; reflexivity).
  assert (Hn : 0 < length (requiredKeywords introAgain)) by (simpl; lia).
  assert (Hm : minWordCount introAgain <= 2) by (simpl; lia).
  split; [reflexivity|]. split; [exact E|]. split; [exact Hn|].
  split; [exact Hm|].
  split.
  - exact (proj1 (header_counts_as_words extract_model longTitleDoc introAgain
                    (0, 13) eq_refl E)).
  - exact (proj2 (header_counts_as_words extract_model longTitleDoc introAgain
                    (0, 13) eq_refl E) Hn Hm).
Defined.

Lemma short_document_caps_section_witness :
  plain_name (name introOnly) = true
  /\ 0 < length (requiredKeywords introOnly)
  /\ EvaluationResult.wordCount
       (evaluateDocument extract_model longTitleDoc smallType)
     < minWordCount introOnly
  /\ (forall sectionMatch,
        length (words (sectionText longTitleDoc sectionMatch))
        <= EvaluationResult.wordCount
             (evaluateDocument extract_model longTitleDoc smallType))
  /\ num_leb (score (evaluateSection extract_model longTitleDoc introOnly)) half
     = true.
Proof.
  assert (Hn : 0 < length (requiredKeywords introOnly)) by (simpl; lia).
  assert (Hs : EvaluationResult.wordCount
                 (evaluateDocument extract_model longTitleDoc smallType)
               < minWordCount introOnly)
    by (vm_compute; lia).
  split; [reflexivity|]. split; [exact Hn|]. split; [exact Hs|].
  apply (short_document_caps_section extract_model longTitleDoc introOnly
           smallType eq_refl Hn Hs).
Defined.

Lemma headerless_document_score_witness :
  plain_rubric twoSectionType = true
  /\ 0 < length (DocumentType.sections twoSectionType)
  /\ (forall section,
        In section (DocumentType.sections twoSectionType) ->
        ~ (exists pre w post,
             strayDoc = pre +:+ w +:+ post /\ header_shape (name section) w))
  /\ num_eq
       (EvaluationResult.overallScore
          (evaluateDocument extract_model strayDoc twoSectionType))
       (if DocumentType.overallMinWordCount twoSectionType
           <=? length (words strayDoc)
        then Fin 10 else Fin 0).
Proof.
  assert (Hn : 0 < length (DocumentType.sections twoSectionType))
    by (simpl; lia).
  assert (Hnone : forall section,
             In section (DocumentType.sections twoSectionType) ->
             ~ (exists pre w post,
                  strayDoc = pre +:+ w +:+ post
                  /\ header_shape (name section) w)).
  { intros section [<-|[<-|[]]]; apply no_header_of_no_match;
      vm_compute; reflexivity. }
  split; [reflexivity|]. split; [exact Hn|]. split; [exact Hnone|].
  apply (headerless_document_score extract_model strayDoc twoSectionType
           eq_refl Hn Hnone).
Defined.

Lemma feedback_follows_rubric_witness :
  plain_rubric twoSectionType = true
  /\ length (EvaluationResult.feedback
               (evaluateDocument extract_model smallDoc twoSectionType))
     = S (length (DocumentType.sections twoSectionType))
  /\ (forall i section,
        DocumentType.sections twoSectionType !! i = Some section ->
        EvaluationResult.feedback
          (evaluateDocument extract_model smallDoc twoSectionType) !! i
        = Some (name section +:+ ": "
                +:+ feedback (evaluateSection extract_model smallDoc section)))
  /\ exists line,
       EvaluationResult.feedback
         (evaluateDocument extract_model smallDoc twoSectionType)
       !! length (DocumentType.sections twoSectionType) = Some line
       /\ slice_to 18 line = "Overall word count".
Proof.
  split; [reflexivity|].
  apply (feedback_follows_rubric extract_model smallDoc twoSectionType).
  reflexivity.
Defined.

Lemma sectionScores_lookup_witness :
  plain_rubric repeatedType = true
  /\ EvaluationResult.sectionScores
       (evaluateDocument extract_model longTitleDoc repeatedType) !! "Intro"
     = if String.eqb "Intro" "__proto__" then None
       else option_map
              (fun section =>
                 score (evaluateSection extract_model longTitleDoc section))
              (lastSection (fun section => String.eqb (name section) "Intro")
                 (DocumentType.sections repeatedType)).
Proof.
  split; [reflexivity|].
  apply (sectionScores_lookup extract_model longTitleDoc repeatedType "Intro").
  reflexivity.
Defined.

Lemma missingKeywords_lookup_witness :
  plain_rubric repeatedType = true
  /\ EvaluationResult.missingKeywords
       (evaluateDocument extract_model longTitleDoc repeatedType) !! "Intro"
     = (if String.eqb "Intro" "__proto__" then None
        else option_map
               (fun section =>
                  missingKeywords
                    (evaluateSection extract_model longTitleDoc section))
               (lastSection
                  (fun section =>
                     String.eqb (name section) "Intro"
                     && (0 <? length (missingKeywords
                                        (evaluateSection extract_model
                                           longTitleDoc section))))
                  (DocumentType.sections repeatedType)))
  /\ EvaluationResult.missingKeywords
       (evaluateDocument extract_model longTitleDoc repeatedType) !! "Intro"
     <> Some [].
Proof.
  split; [reflexivity|].
  apply (missingKeywords_lookup extract_model longTitleDoc repeatedType "Intro").
  reflexivity.
Defined.

Lemma fetch_failure_is_reported_witness :
  refusing (githubRequest "o" "r" "README.md" "t")
  = Thrown "Request failed with status code 404"
  /\ nonEmpty "me" = true
  /\ evaluateDocumentFromSource extract_model refusing writable joinWithSlash
       "/app" reportOf "github" "o" "r" "README.md" "t" None
     = ([HttpGet (githubRequest "o" "r" "README.md" "t");
         ConsoleError
           ("Error evaluating document: Error fetching file from GitHub: "
            +:+ "Request failed with status code 404")],
        Returned tt)
  /\ evaluateDocumentFromSource extract_model refusing writable joinWithSlash
       "/app" reportOf "bitbucket" "o" "r" "README.md" "t" (Some "me")
     = ([HttpGet (bitbucketRequest "o" "r" "README.md" "me" "t");
         ConsoleError
           ("Error evaluating document: Error fetching file from Bitbucket: "
            +:+ "Request failed with status code 404")],
        Returned tt).
Proof.
  split; [reflexivity|]. split; [reflexivity|]. split.
  - exact (proj1 (fetch_failure_is_reported extract_model refusing writable
                    joinWithSlash "/app" reportOf "o" "r" "README.md" "t"
                    "Request failed with status code 404")
             None eq_refl).
  - exact (proj2 (fetch_failure_is_reported extract_model refusing writable
                    joinWithSlash "/app" reportOf "o" "r" "README.md" "t"
                    "Request failed with status code 404")
             "me" eq_refl eq_refl).
Defined.

Lemma keyword_case_is_irrelevant_witness :
  plain_name (name introOnly) = true
  /\ name introShout = name introOnly
  /\ minWordCount introShout = minWordCount introOnly
  /\ map toLowerCase (requiredKeywords introShout)
     = map toLowerCase (requiredKeywords introOnly)
  /\ score (evaluateSection extract_model smallDoc introShout)
     = score (evaluateSection extract_model smallDoc introOnly)
  /\ map toLowerCase
       (missingKeywords (evaluateSection extract_model smallDoc introShout))
     = map toLowerCase
         (missingKeywords (evaluateSection extract_model smallDoc introOnly)).
Proof.
  split; [reflexivity|]. split; [reflexivity|]. split; [reflexivity|].
  split; [reflexivity|].
  apply (keyword_case_is_irrelevant extract_model smallDoc introOnly introShout);
    reflexivity.
Defined.

(** The missing keywords are reported as the rubric spells them. *)
Example missing_keyword_as_spelled :
  missingKeywords (evaluateSection extract_model longTitleDoc introShout)
  = ["Scope"]
  /\ missingKeywords (evaluateSection extract_model longTitleDoc introOnly)
     = ["scope"].
Proof. split; vm_compute; reflexivity. Qed.

(** A section named [__proto__] is evaluated and reported in the feedback,
    and has no entry in [sectionScores] nor in [missingKeywords]. *)
Example proto_section_has_no_entry :
  map_to_list
    (EvaluationResult.sectionScores
       (evaluateDocument extract_model protoDoc protoType)) = []
  /\ map_to_list
       (EvaluationResult.missingKeywords
          (evaluateDocument extract_model protoDoc protoType)) = []
  /\ missingKeywords (evaluateSection extract_model protoDoc protoSection)
     = ["summary"]
  /\ EvaluationResult.feedback
       (evaluateDocument extract_model protoDoc protoType)
     = ["__proto__: Word count requirement met (4 words). Missing keywords: summary. ";
        "Overall word count requirement met (4 words)."].
Proof. repeat split; vm_compute; reflexivity. Qed.
